(** * claude-governance: the policy compiler, embedded and verified

    A shallow embedding of the TypeScript sources
    - [src/schema/governance.ts]   (the data model the schema infers),
    - [src/parser.ts]              (validation-error formatting),
    - [src/generators/settings.ts] (the local enforcement descriptor),
    - [src/generators/workflow.ts] (the pipeline-definition data),
    - [src/compiler.ts]            (orchestration and documentation),
    followed by the properties the specification states about them.

    Conventions.  An optional field [f?: T] is an [option T]; a JavaScript
    truthiness test on it is written out ([Some ""] is falsy, [Some 0] is
    falsy, every present array or object is truthy).  A [Record<string, T>]
    is a [gmap string T].  Code that can [throw] returns a [result].  Strings
    are byte strings; the only string operations the code performs are
    concatenation, joining and substring search, which agree on byte strings
    and on UTF-16 strings for well-formed text. *)

From Stdlib Require Import Floats.SpecFloat Strings.Ascii.
From stdpp Require Import gmap strings list pretty.

Local Open Scope string_scope.
Local Open Scope list_scope.

(** ** JavaScript values the code relies on *)

(** A JavaScript [number] is an IEEE 754 double.  The code only ever tests a
    number for truthiness and copies it. *)
Definition JsNumber : Type := spec_float.

(** [if (n)]: zero of either sign and NaN are falsy. *)
Definition number_truthy (n : JsNumber) : bool :=
  match n with
  | S754_zero _ => false
  | S754_nan => false
  | S754_infinity _ => true
  | S754_finite _ _ _ => true
  end.

(** [if (s)] on a string: only the empty string is falsy. *)
Definition string_truthy (s : string) : bool :=
  match s with
  | EmptyString => false
  | String _ _ => true
  end.

(** [if (o.f)] on an optional string field. *)
Definition opt_string_truthy (o : option string) : bool :=
  match o with
  | Some s => string_truthy s
  | None => false
  end.

(** [if (o.f)] on an optional number field. *)
Definition opt_number_truthy (o : option JsNumber) : bool :=
  match o with
  | Some n => number_truthy n
  | None => false
  end.

(** [s.includes(needle)]. *)
Fixpoint includes (s needle : string) : bool :=
  if String.prefix needle s then true
  else match s with
       | EmptyString => false
       | String _ s' => includes s' needle
       end.

(** [xs.join(sep)] on an array of strings. *)
Definition join (sep : string) (xs : list string) : string :=
  String.concat sep xs.

(** A template-literal hole [${x}] filled with an optional string:
    [undefined] prints as the word. *)
Definition interpolate (o : option string) : string :=
  match o with
  | Some s => s
  | None => "undefined"
  end.

(** The value space of [z.any()]. *)
#[local] Unset Elimination Schemes.
Inductive JsonValue : Type :=
  | JNull
  | JBool (b : bool)
  | JNum (n : JsNumber)
  | JStr (s : string)
  | JArr (xs : list JsonValue)
  | JObj (fields : list (string * JsonValue)).
#[local] Set Elimination Schemes.

(** ** Exceptions *)

Inductive result (A : Type) : Type :=
  | Ok (a : A)
  | Throw (msg : string).
Arguments Ok {A} a.
Arguments Throw {A} msg.

#[global] Instance result_ret : MRet result := @Ok.
#[global] Instance result_bind : MBind result := λ A B f m,
  match m with
  | Ok a => f a
  | Throw e => Throw e
  end.
#[global] Instance result_fmap : FMap result := λ A B f m,
  match m with
  | Ok a => Ok (f a)
  | Throw e => Throw e
  end.

(** [xs.map(f)] where the callback may throw: elements are visited left to
    right and the first exception aborts the whole call. *)
Fixpoint map_throwing {A B} (f : A → result B) (xs : list A) : result (list B) :=
  match xs with
  | [] => Ok []
  | x :: xs' =>
      y ← f x;
      ys ← map_throwing f xs';
      Ok (y :: ys)
  end.

Definition is_ok {A} (r : result A) : bool :=
  match r with
  | Ok _ => true
  | Throw _ => false
  end.

(** ** The canonical model ([src/schema/governance.ts])

    One record per [z.object]; [.optional()] fields are options. *)

(** [PermissionRuleSchema] *)
Record PermissionRule : Type := {
  rule_path : option string;
  rule_pattern : option string;
  rule_reason : option string;
}.

(** [FilesystemPermissionsSchema] and [CommandPermissionsSchema] have the
    same shape. *)
Record RuleLists : Type := {
  deny : option (list PermissionRule);
  ask : option (list PermissionRule);
  allow : option (list PermissionRule);
}.

(** [NetworkPermissionsSchema] *)
Record NetworkPermissions : Type := {
  allowed_domains : option (list string);
  blocked_domains : option (list string);
}.

(** [PermissionsSchema] *)
Record Permissions : Type := {
  filesystem : option RuleLists;
  commands : option RuleLists;
  network : option NetworkPermissions;
}.

(** [SecretPatternSchema] *)
Record SecretPattern : Type := {
  secret_pattern : string;
  secret_name : option string;
}.

Record SecretsDetection : Type := {
  patterns : option (list SecretPattern);
}.

Record SecretsEnforcement : Type := {
  secrets_hook : option string;
  secrets_action : option string;
  secrets_message : option string;
}.

(** [SecretsSchema] *)
Record Secrets : Type := {
  secrets_policy : option string;
  allowed_sources : option (list string);
  detection : option SecretsDetection;
  secrets_enforcement : option SecretsEnforcement;
}.

(** [z.enum(['command', 'prompt', 'agent'])] *)
Inductive ActionType : Type := command_action | prompt_action | agent_action.

Definition ActionType_options : list string := ["command"; "prompt"; "agent"].

Definition ActionType_string (t : ActionType) : string :=
  match t with
  | command_action => "command"
  | prompt_action => "prompt"
  | agent_action => "agent"
  end.

(** [ApprovalGateActionSchema] *)
Record ApprovalGateAction : Type := {
  action_type : ActionType;
  action_command : option string;
  action_prompt : option string;
  action_timeout : option JsNumber;
}.

(** [ApprovalGateTriggerSchema] *)
Record ApprovalGateTrigger : Type := {
  tool : option string;
  path_pattern : option string;
  command_pattern : option string;
}.

(** [ApprovalGateSchema] *)
Record ApprovalGate : Type := {
  gate_name : string;
  trigger : ApprovalGateTrigger;
  action : ApprovalGateAction;
}.

Record AuditDestination : Type := {
  dest_type : string;
  dest_path : option string;
  dest_bucket : option string;
  dest_prefix : option string;
  dest_profile : option string;
  dest_endpoint : option string;
  dest_headers : option (gmap string string);
}.

(** [AuditSchema] *)
Record Audit : Type := {
  audit_enabled : option bool;
  audit_events : option (list string);
  destinations : option (list AuditDestination);
  required_fields : option (list string);
  retention : option string;
}.

(** [z.enum(['auto-allow', 'regular'])] *)
Inductive SandboxMode : Type := auto_allow | regular.

Definition SandboxMode_string (m : SandboxMode) : string :=
  match m with
  | auto_allow => "auto-allow"
  | regular => "regular"
  end.

Record SandboxFilesystem : Type := {
  allowed_paths : option (list string);
  blocked_paths : option (list string);
}.

Record SandboxNetwork : Type := {
  inherit_from : option string;
}.

(** [SandboxSchema] *)
Record Sandbox : Type := {
  sandbox_enabled : option bool;
  sandbox_mode : option SandboxMode;
  sandbox_filesystem : option SandboxFilesystem;
  sandbox_network : option SandboxNetwork;
  excluded_commands : option (list string);
}.

(** [ComplianceControlSchema] *)
Record ComplianceControl : Type := {
  control_id : string;
  control_description : string;
  satisfied_by : list string;
}.

(** [ComplianceFrameworkSchema] *)
Record ComplianceFramework : Type := {
  framework_name : string;
  controls : list ComplianceControl;
}.

Record Compliance : Type := {
  frameworks : option (list ComplianceFramework);
}.

(** [RoleSchema] *)
Record Role : Type := {
  members : option (list string);
  restrictions : option (list string);
  additional_gates : option (list ApprovalGate);
  behavior : option (list string);
}.

Record ProtectedBranch : Type := {
  branch_name : string;
  requires : gmap string JsonValue;
}.

Record Branches : Type := {
  protected : option (list ProtectedBranch);
}.

Record DeploymentStage : Type := {
  stage_environment : string;
  stage_branch : string;
  auto_deploy : option bool;
  stage_gates : option (list string);
}.

Record Deployment : Type := {
  sequence : option (list DeploymentStage);
}.

Record Dynamodb : Type := {
  billing_mode : string;
  dynamodb_enforcement : string;
  dynamodb_reason : option string;
}.

Record GitPolicy : Type := {
  no_claude_attribution : option bool;
  git_reason : option string;
}.

Record Operational : Type := {
  branches : option Branches;
  deployment : option Deployment;
  dynamodb : option Dynamodb;
  git : option GitPolicy;
}.

Record RequiredTest : Type := {
  test_name : string;
  test_command : string;
  test_directories : option (list string);
}.

Record TestingEnforcement : Type := {
  testing_hook : string;
  testing_action : string;
  testing_prompt : option string;
}.

Record Testing : Type := {
  required_before_commit : option (list RequiredTest);
  required_before_merge : option (list RequiredTest);
  testing_enforcement : option TestingEnforcement;
}.

Record CostControl : Type := {
  cost_resource : option string;
  cost_policy : option string;
  alert_threshold : option string;
  cost_action : option string;
  cost_enforcement : option string;
}.

(** [GovernanceSchema] *)
Record GovernanceConfig : Type := {
  version : string;
  project : string;
  description : option string;
  data_classification : option (gmap string (list string));
  permissions : option Permissions;
  secrets : option Secrets;
  approval_gates : option (list ApprovalGate);
  operational : option Operational;
  testing : option Testing;
  roles : option (gmap string Role);
  audit : option Audit;
  sandbox : option Sandbox;
  compliance : option Compliance;
  cost_controls : option (gmap string (list CostControl));
}.

(** The document that carries the two mandatory fields and nothing else. *)
Definition minimal_config (v p : string) : GovernanceConfig := {|
  version := v;
  project := p;
  description := None;
  data_classification := None;
  permissions := None;
  secrets := None;
  approval_gates := None;
  operational := None;
  testing := None;
  roles := None;
  audit := None;
  sandbox := None;
  compliance := None;
  cost_controls := None;
|}.

(** ** The settings projector ([src/generators/settings.ts]) *)

Module SettingsGenerator.

(** [ClaudeSettings['permissions']] *)
Record ClaudePermissions : Type := {
  out_allow : option (list string);
  out_deny : option (list string);
  out_ask : option (list string);
}.

(** [ClaudeSettings['sandbox']] *)
Record ClaudeSandbox : Type := {
  enabled : option bool;
  mode : option string;
  allowedDomains : option (list string);
  blockedDomains : option (list string);
  allowedPaths : option (list string);
  blockedPaths : option (list string);
  excludedCommands : option (list string);
}.

(** The object literal [hookConfig] of [generateHooksConfig]. *)
Record HookConfig : Type := {
  hook_type : ActionType;
  hook_command : option string;
  hook_prompt : option string;
  hook_timeout : option JsNumber;
}.

(** One element of [hooks[hookEvent]]: [{ matcher, hooks: [hookConfig] }]. *)
Record HookBinding : Type := {
  matcher : string;
  hooks : list HookConfig;
}.

(** [interface ClaudeSettings] *)
Record ClaudeSettings : Type := {
  settings_permissions : option ClaudePermissions;
  settings_sandbox : option ClaudeSandbox;
  settings_hooks : option (gmap string (list HookBinding));
  defaultMode : option string;
}.

(** [formatFilePermission(rule, tools)] *)
Definition formatFilePermission (rule : PermissionRule) (tools : string) : result string :=
  if negb (opt_string_truthy (rule_path rule)) then
    Throw "Filesystem permission rule must have a path"
  else if includes (interpolate (rule_path rule)) "*" then
    Ok (tools +:+ "(" +:+ interpolate (rule_path rule) +:+ ")")
  else
    Ok (tools +:+ "(" +:+ interpolate (rule_path rule) +:+ ")").

(** [formatBashPermission(rule)] *)
Definition formatBashPermission (rule : PermissionRule) : result string :=
  if negb (opt_string_truthy (rule_pattern rule)) then
    Throw "Command permission rule must have a pattern"
  else
    Ok ("Bash(" +:+ interpolate (rule_pattern rule) +:+ ")").

(** One guarded block of [generatePermissions]:
    [if (rules && rules.length > 0) {
       target = target || []; target.push(...rules.map(fmt)); }] *)
Definition push_rules (fmt : PermissionRule → result string)
    (target : option (list string)) (rules : option (list PermissionRule))
    : result (option (list string)) :=
  match rules with
  | Some ((_ :: _) as rs) =>
      formatted ← map_throwing fmt rs;
      Ok (Some (default [] target ++ formatted))
  | Some [] => Ok target
  | None => Ok target
  end.

(** The three blocks run for one scope, in source order: deny, ask, allow. *)
Definition push_scope (fmt : PermissionRule → result string)
    (acc : ClaudePermissions) (scope : option RuleLists) : result ClaudePermissions :=
  match scope with
  | Some lists =>
      d ← push_rules fmt (out_deny acc) (deny lists);
      a ← push_rules fmt (out_ask acc) (ask lists);
      al ← push_rules fmt (out_allow acc) (allow lists);
      Ok {| out_allow := al; out_deny := d; out_ask := a |}
  | None => Ok acc
  end.

(** [generatePermissions(config)] *)
Definition generatePermissions (config : GovernanceConfig) : result ClaudePermissions :=
  let empty := {| out_allow := None; out_deny := None; out_ask := None |} in
  after_files ←
    push_scope (λ r, formatFilePermission r "Read|Write|Edit") empty
      (permissions config ≫= filesystem);
  push_scope formatBashPermission after_files
    (permissions config ≫= commands).

(** [generateSandbox(config)] *)
Definition generateSandbox (config : GovernanceConfig) : ClaudeSandbox :=
  let fresh := {| enabled := Some true; mode := None;
                  allowedDomains := None; blockedDomains := None;
                  allowedPaths := None; blockedPaths := None;
                  excludedCommands := None |} in
  match sandbox config with
  | None => fresh
  | Some sb =>
      let net : option NetworkPermissions := permissions config ≫= network in
      {| enabled := Some true;
         mode :=
           match sandbox_mode sb with
           | Some m => Some (SandboxMode_string m)
           | None => None
           end;
         allowedDomains :=
           match net with Some n => allowed_domains n | None => None end;
         blockedDomains :=
           match net with Some n => blocked_domains n | None => None end;
         allowedPaths :=
           match sandbox_filesystem sb with
           | Some fs => allowed_paths fs
           | None => None
           end;
         blockedPaths :=
           match sandbox_filesystem sb with
           | Some fs => blocked_paths fs
           | None => None
           end;
         excludedCommands := excluded_commands sb |}
  end.

(** The [hookEvent] chosen for a gate: every branch assigns the same
    constant. *)
Definition hookEvent (gate : ApprovalGate) : string :=
  if opt_string_truthy (command_pattern (trigger gate)) then "PreToolUse"
  else if opt_string_truthy (path_pattern (trigger gate)) then "PreToolUse"
  else "PreToolUse".

(** The [matcher] chosen for a gate. *)
Definition gate_matcher (gate : ApprovalGate) : string :=
  if opt_string_truthy (tool (trigger gate)) then interpolate (tool (trigger gate))
  else if opt_string_truthy (command_pattern (trigger gate)) then "Bash"
  else if opt_string_truthy (path_pattern (trigger gate)) then "Edit|Write"
  else "".

(** The [hookConfig] object built for a gate. *)
Definition gate_hookConfig (gate : ApprovalGate) : HookConfig :=
  {| hook_type := action_type (action gate);
     hook_command :=
       if opt_string_truthy (action_command (action gate))
       then action_command (action gate) else None;
     hook_prompt :=
       if opt_string_truthy (action_prompt (action gate))
       then action_prompt (action gate) else None;
     hook_timeout :=
       if opt_number_truthy (action_timeout (action gate))
       then action_timeout (action gate) else None |}.

(** One iteration of the loop over [config.approval_gates]. *)
Definition add_gate (acc : gmap string (list HookBinding)) (gate : ApprovalGate)
    : gmap string (list HookBinding) :=
  let ev := hookEvent gate in
  let binding := {| matcher := gate_matcher gate; hooks := [gate_hookConfig gate] |} in
  <[ev := default [] (acc !! ev) ++ [binding]]> acc.

(** [generateHooksConfig(config)] *)
Definition generateHooksConfig (config : GovernanceConfig) : gmap string (list HookBinding) :=
  match approval_gates config with
  | None => ∅
  | Some [] => ∅
  | Some gates => foldl add_gate ∅ gates
  end.

(** [generate(config)] *)
Definition generate (config : GovernanceConfig) : result ClaudeSettings :=
  perms ←
    match permissions config with
    | Some _ => Some <$> generatePermissions config
    | None => Ok None
    end;
  let sb :=
    match sandbox config ≫= sandbox_enabled with
    | Some true => Some (generateSandbox config)
    | _ => None
    end in
  let hk := generateHooksConfig config in
  Ok {| settings_permissions := perms;
        settings_sandbox := sb;
        settings_hooks := if decide (0 < size hk) then Some hk else None;
        defaultMode := None |}.

End SettingsGenerator.

(** ** The workflow projector ([src/generators/workflow.ts]) *)

Module WorkflowGenerator.

(** [interface GeneratedWorkflow] *)
Record GeneratedWorkflow : Type := {
  filename : string;
  content : string;
}.

(** One element pushed by [getComplianceControls]. *)
Record ControlReport : Type := {
  id : string;
  framework : string;
  report_description : string;
  evidence : list string;
}.

(** The object literal [data] handed to the compiled template. *)
Record TemplateData : Type := {
  projectName : string;
  protectedBranches : list string;
  secretPatterns : list SecretPattern;
  hasTerraform : bool;
  dynamodbBillingMode : option string;
  contractorMembers : list string;
  complianceControls : list ControlReport;
}.

(** [getProtectedBranches(config)] *)
Definition getProtectedBranches (config : GovernanceConfig) : list string :=
  let found : list ProtectedBranch :=
    default [] ((operational config ≫= branches) ≫= protected) in
  map branch_name found.

(** The loop condition of [checkTerraformUsage]:
    [p?.includes('.tf') || p?.includes('infrastructure/')]. *)
Definition gate_touches_infrastructure (gate : ApprovalGate) : bool :=
  match path_pattern (trigger gate) with
  | Some p => includes p ".tf" || includes p "infrastructure/"
  | None => false
  end.

(** [checkTerraformUsage(config)]: the loop returns [true] at the first
    gate that satisfies the condition, [false] when it runs out. *)
Definition checkTerraformUsage (config : GovernanceConfig) : bool :=
  match approval_gates config with
  | None => false
  | Some gates => existsb gate_touches_infrastructure gates
  end.

(** [getContractorMembers(config)] *)
Definition getContractorMembers (config : GovernanceConfig) : list string :=
  match roles config with
  | None => []
  | Some rs =>
      match rs !! "contractor" with
      | None => []
      | Some role => default [] (members role)
      end
  end.

(** The body of the inner loop of [getComplianceControls]. *)
Definition control_report (fw : ComplianceFramework) (control : ComplianceControl)
    : ControlReport :=
  {| id := control_id control;
     framework := framework_name fw;
     report_description := control_description control;
     evidence := satisfied_by control |}.

(** [getComplianceControls(config)] *)
Definition getComplianceControls (config : GovernanceConfig) : list ControlReport :=
  match compliance config ≫= frameworks with
  | None => []
  | Some fws => flat_map (λ fw, map (control_report fw) (controls fw)) fws
  end.

(** The [data] object of [generate]. *)
Definition template_data (config : GovernanceConfig) : TemplateData :=
  {| projectName := project config;
     protectedBranches := getProtectedBranches config;
     secretPatterns :=
       default [] ((secrets config ≫= detection) ≫= patterns);
     hasTerraform := checkTerraformUsage config;
     dynamodbBillingMode :=
       match operational config ≫= dynamodb with
       | Some d => Some (billing_mode d)
       | None => None
       end;
     contractorMembers := getContractorMembers config;
     complianceControls := getComplianceControls config |}.

Section Generate.
(** What [generate] takes from outside the repository's sources: the
    directory the templates live in, [path.join], [fs.readFileSync] and
    the Handlebars engine (compile a template, apply it to the data). *)
Variable templatesDir : string.
Variable path_join : list string → string.
Variable fs_readFileSync : string → result string.
Variable Handlebars_compile : string → TemplateData → result string.

(** [generate(config)] *)
Definition generate (config : GovernanceConfig) : result GeneratedWorkflow :=
  let templatePath := path_join [templatesDir; "governance.yml.hbs"] in
  template ← fs_readFileSync templatePath;
  let data := template_data config in
  rendered ← Handlebars_compile template data;
  Ok {| filename := "governance.yml"; content := rendered |}.
End Generate.

End WorkflowGenerator.

(** ** The validator front end ([src/parser.ts]) *)

Module GovernanceParser.

(** The issue codes of the schema library (its [ZodIssueCode]). *)
Inductive ZodIssueCode : Type :=
  | invalid_type
  | invalid_literal
  | custom
  | invalid_union
  | invalid_union_discriminator
  | invalid_enum_value
  | unrecognized_keys
  | invalid_arguments
  | invalid_return_type
  | invalid_date
  | invalid_string
  | too_small
  | too_big
  | invalid_intersection_types
  | not_multiple_of
  | not_finite.

#[global] Instance ZodIssueCode_eq_dec : EqDecision ZodIssueCode.
Proof. solve_decision. Defined.

(** An element of an issue's [path]: an object key or an array index. *)
Inductive PathSegment : Type :=
  | Key (k : string)
  | Index (i : N).

(** What [Array.prototype.join] prints for a path element. *)
Definition segment_string (seg : PathSegment) : string :=
  match seg with
  | Key k => k
  | Index i => pretty i
  end.

(** One element of [error.errors].  [options] is the property the library
    attaches to [invalid_enum_value] issues. *)
Record ZodIssue : Type := {
  code : ZodIssueCode;
  path : list PathSegment;
  message : string;
  options : list string;
}.

(** What the [catch (error: any)] around [GovernanceSchema.parse] can
    receive: the library's error, whose [errors] is an array of issues, or
    any other exception, of which only the [message] is read. *)
Inductive SchemaFailure : Type :=
  | ZodError (errors : list ZodIssue)
  | OtherError (msg : string).

Definition newline : string := String "010"%char EmptyString.

(** The loop body of [formatValidationError]: the lines pushed for one
    issue. *)
Definition issue_line (err : ZodIssue) : string :=
  "  - " +:+ join "." (map segment_string (path err)) +:+ ": " +:+ message err.

Definition allowed_values_line (err : ZodIssue) : string :=
  "    Allowed values: " +:+ join ", " (options err).

Definition issue_lines (err : ZodIssue) : list string :=
  issue_line err ::
  (if decide (code err = invalid_enum_value) then [allowed_values_line err] else []).

(** The array [lines] of [formatValidationError] before it is joined. *)
Definition validation_lines (error : SchemaFailure) (source : string) : list string :=
  ("Validation errors in " +:+ source +:+ ":") ::
  match error with
  | ZodError errs => flat_map issue_lines errs
  | OtherError msg => ["  " +:+ msg]
  end.

(** [formatValidationError(error, source)] *)
Definition formatValidationError (error : SchemaFailure) (source : string) : string :=
  join newline (validation_lines error source).

Section Parse.
(** What the parser takes from outside the repository: the raw tree
    type and loader of the YAML library, the schema library's [parse]
    applied to [GovernanceSchema], and the two [fs] reads. *)
Variable Raw : Type.
Variable yaml_load : string → result Raw.
Variable GovernanceSchema_parse : Raw → SchemaFailure + GovernanceConfig.
Variable fs_existsSync : string → bool.
Variable fs_readFileSync : string → result string.

(** [parseString(content, source)] *)
Definition parseString (content source : string) : result GovernanceConfig :=
  match yaml_load content with
  | Throw msg => Throw ("YAML parsing error in " +:+ source +:+ ": " +:+ msg)
  | Ok data =>
      match GovernanceSchema_parse data with
      | inr config => Ok config
      | inl error => Throw (formatValidationError error source)
      end
  end.

(** [parseFile(filePath)] *)
Definition parseFile (filePath : string) : result GovernanceConfig :=
  if negb (fs_existsSync filePath) then
    Throw ("Governance file not found: " +:+ filePath)
  else
    content ← fs_readFileSync filePath;
    parseString content filePath.

(** [validate(filePath)]: [valid], and [errors] when not valid. *)
Definition validate (filePath : string) : bool * option (list string) :=
  match parseFile filePath with
  | Ok _ => (true, None)
  | Throw msg => (false, Some [msg])
  end.
End Parse.

End GovernanceParser.

(** ** The compiler ([src/compiler.ts]) *)

Module GovernanceCompiler.

Import GovernanceParser.

(** [interface CompilationFile] *)
Record CompilationFile : Type := {
  file_path : string;
  file_content : string;
  executable : option bool;
}.

(** [interface CompilationResult] *)
Record CompilationResult : Type := {
  success : bool;
  files : list CompilationFile;
  errors : option (list string);
}.

(** Modelled from the spec: [GeneratedHook] is declared in
    [src/generators/hooks.ts], which is not among the sources at hand.  An
    enforcement script is an artifact with a file name, a content and an
    executable mark; these are the three properties [generateFiles] reads
    from each element of the hook projector's output. *)
Record GeneratedHook : Type := {
  hook_filename : string;
  hook_content : string;
  hook_executable : option bool;
}.

(** *** [generateDocumentation] *)

(** One bullet of a rule list:
    [- `${field}`], then [ - ${reason}] if there is one, then a newline. *)
Definition doc_rule (field : PermissionRule → option string) (rule : PermissionRule)
    : string :=
  "- `" +:+ interpolate (field rule) +:+ "`" +:+
  (if opt_string_truthy (rule_reason rule)
   then " - " +:+ interpolate (rule_reason rule) else "") +:+
  newline.

(** [if (rules && rules.length > 0) { title; one bullet per rule; blank }] *)
Definition doc_rules (title : string) (field : PermissionRule → option string)
    (rules : option (list PermissionRule)) : string :=
  match rules with
  | Some ((_ :: _) as rs) =>
      title +:+ newline +:+ join "" (map (doc_rule field) rs) +:+ newline
  | Some [] => ""
  | None => ""
  end.

Definition doc_filesystem (fs : option RuleLists) : string :=
  match fs with
  | Some lists =>
      "### Filesystem Access" +:+ newline +:+ newline +:+
      doc_rules "**Blocked paths:**" rule_path (deny lists) +:+
      doc_rules "**Requires approval:**" rule_path (ask lists)
  | None => ""
  end.

Definition doc_commands (cs : option RuleLists) : string :=
  match cs with
  | Some lists =>
      "### Command Restrictions" +:+ newline +:+ newline +:+
      doc_rules "**Blocked commands:**" rule_pattern (deny lists)
  | None => ""
  end.

Definition doc_permissions (config : GovernanceConfig) : string :=
  match permissions config with
  | Some p =>
      "## Permissions" +:+ newline +:+ newline +:+
      doc_filesystem (filesystem p) +:+ doc_commands (commands p)
  | None => ""
  end.

Definition doc_gate (gate : ApprovalGate) : string :=
  "### " +:+ gate_name gate +:+ newline +:+ newline +:+
  "**Trigger:** " +:+
  (if opt_string_truthy (path_pattern (trigger gate)) then
     "Files matching `" +:+ interpolate (path_pattern (trigger gate)) +:+ "`"
   else if opt_string_truthy (command_pattern (trigger gate)) then
     "Commands matching `" +:+ interpolate (command_pattern (trigger gate)) +:+ "`"
   else "") +:+
  newline +:+ newline +:+
  "**Action:** " +:+ ActionType_string (action_type (action gate)) +:+
  newline +:+ newline.

Definition doc_gates (config : GovernanceConfig) : string :=
  match approval_gates config with
  | Some ((_ :: _) as gates) =>
      "## Approval Gates" +:+ newline +:+ newline +:+ join "" (map doc_gate gates)
  | Some [] => ""
  | None => ""
  end.

Definition doc_control (control : ComplianceControl) : string :=
  "**" +:+ control_id control +:+ ":** " +:+ control_description control +:+ newline +:+
  "- Satisfied by: " +:+ join ", " (satisfied_by control) +:+ newline +:+ newline.

Definition doc_framework (fw : ComplianceFramework) : string :=
  "### " +:+ framework_name fw +:+ newline +:+ newline +:+
  join "" (map doc_control (controls fw)).

Definition doc_compliance (config : GovernanceConfig) : string :=
  match compliance config ≫= frameworks with
  | Some ((_ :: _) as fws) =>
      "## Compliance" +:+ newline +:+ newline +:+ join "" (map doc_framework fws)
  | Some [] => ""
  | None => ""
  end.

(** [generateDocumentation(config)] *)
Definition generateDocumentation (config : GovernanceConfig) : string :=
  "# Governance Documentation" +:+ newline +:+ newline +:+
  "Project: " +:+ project config +:+ newline +:+ newline +:+
  (if opt_string_truthy (description config)
   then interpolate (description config) +:+ newline +:+ newline else "") +:+
  "## Overview" +:+ newline +:+ newline +:+
  "This project uses Claude Code Governance framework for:" +:+ newline +:+ newline +:+
  "- Automated policy enforcement during development" +:+ newline +:+
  "- CI/CD integration for tamper-proof checks" +:+ newline +:+
  "- Compliance control mapping and audit trails" +:+ newline +:+ newline +:+
  doc_permissions config +:+
  doc_gates config +:+
  doc_compliance config +:+
  "---" +:+ newline +:+ newline +:+
  "*Auto-generated by [claude-governance](https://github.com/Lopie-Dev/claude-governance)*" +:+
  newline.

Section Pipeline.
(** What the pipeline takes from outside [src/]: [JSON.stringify] (with
    its fixed indentation), the hook projector
    ([HooksGenerator.generate], whose source file is not part of the
    sources at hand), the directory of the workflow module, [path.join],
    [fs.readFileSync] and the Handlebars engine. *)
Variable JSON_stringify : SettingsGenerator.ClaudeSettings → string.
Variable HooksGenerator_generate : GovernanceConfig → result (list GeneratedHook).
Variable dirname : string.
Variable path_join : list string → string.
Variable fs_readFileSync : string → result string.
Variable Handlebars_compile : string → WorkflowGenerator.TemplateData → result string.

(** [SettingsGenerator.toJSON(settings)] *)
Definition toJSON (settings : SettingsGenerator.ClaudeSettings) : string :=
  JSON_stringify settings.

(** The default of the [WorkflowGenerator] constructor. *)
Definition templatesDir : string :=
  path_join [dirname; ".."; "templates"; "workflows"].

Definition hook_file (hook : GeneratedHook) : CompilationFile :=
  {| file_path := ".claude/hooks/" +:+ hook_filename hook;
     file_content := hook_content hook;
     executable := hook_executable hook |}.

(** [generateFiles(config, baseDir)] *)
Definition generateFiles (config : GovernanceConfig) (baseDir : string)
    : result (list CompilationFile) :=
  settings ← SettingsGenerator.generate config;
  let settings_file :=
    {| file_path := ".claude/settings.json";
       file_content := toJSON settings;
       executable := None |} in
  hooks ← HooksGenerator_generate config;
  workflow ←
    WorkflowGenerator.generate templatesDir path_join fs_readFileSync
      Handlebars_compile config;
  let workflow_file :=
    {| file_path := ".github/workflows/" +:+ WorkflowGenerator.filename workflow;
       file_content := WorkflowGenerator.content workflow;
       executable := None |} in
  let doc_file :=
    {| file_path := "GOVERNANCE.md";
       file_content := generateDocumentation config;
       executable := None |} in
  Ok ([settings_file] ++ map hook_file hooks ++ [workflow_file; doc_file]).

Variable Raw : Type.
Variable yaml_load : string → result Raw.
Variable GovernanceSchema_parse : Raw → SchemaFailure + GovernanceConfig.
Variable fs_existsSync : string → bool.

(** [preview(governancePath)] *)
Definition preview (governancePath : string) : CompilationResult :=
  let attempt :=
    config ← parseFile Raw yaml_load GovernanceSchema_parse fs_existsSync
               fs_readFileSync governancePath;
    generateFiles config "." in
  match attempt with
  | Ok fs => {| success := true; files := fs; errors := None |}
  | Throw msg => {| success := false; files := []; errors := Some [msg] |}
  end.
End Pipeline.

End GovernanceCompiler.

(** * Properties *)

(** ** Strings: concatenation, joining and substring search *)

(** [needle] occurs in [s]. *)
Definition occurs_in (needle s : string) : Prop :=
  ∃ before after, s = before +:+ needle +:+ after.

Lemma app_empty_l (s : string) : "" +:+ s = s.
Proof. reflexivity. Qed.

Lemma app_cons (a : ascii) (s t : string) : String a s +:+ t = String a (s +:+ t).
Proof. reflexivity. Qed.

Lemma app_empty_r (s : string) : s +:+ "" = s.
Proof. induction s as [|a s IH]; [reflexivity|]. by rewrite app_cons, IH. Qed.

Lemma app_assoc_string (s t u : string) : (s +:+ t) +:+ u = s +:+ (t +:+ u).
Proof. induction s as [|a s IH]; [reflexivity|]. by rewrite !app_cons, IH. Qed.

Lemma prefix_spec (needle s : string) :
  String.prefix needle s = true ↔ ∃ after, s = needle +:+ after.
Proof.
  revert s. induction needle as [|a needle IH]; intros s.
  - split; [intros _; by exists s|]. by destruct s.
  - destruct s as [|b s]; simpl.
    + split; [done|]. intros [after Habs]. by rewrite app_cons in Habs.
    + destruct (ascii_dec a b) as [->|Hne].
      * rewrite IH. split; intros [after H]; exists after.
        -- by rewrite app_cons, H.
        -- rewrite app_cons in H. by simplify_eq.
      * split; [done|]. intros [after H]. rewrite app_cons in H. by simplify_eq.
Qed.

Lemma includes_unfold (s needle : string) :
  includes s needle =
    if String.prefix needle s then true
    else match s with
         | EmptyString => false
         | String _ s' => includes s' needle
         end.
Proof. by destruct s. Qed.

(** [includes] decides occurrence. *)
Lemma includes_spec (s needle : string) :
  includes s needle = true ↔ occurs_in needle s.
Proof.
  induction s as [|a s IH]; rewrite includes_unfold.
  - destruct (String.prefix needle "") eqn:Hp.
    + split; [intros _|done]. apply prefix_spec in Hp as [after Hp].
      exists "", after. by rewrite app_empty_l.
    + split; [done|]. intros (before & after & H).
      destruct before as [|b before]; [|by rewrite app_cons in H].
      rewrite app_empty_l in H.
      assert (String.prefix needle "" = true) by (apply prefix_spec; eauto).
      congruence.
  - destruct (String.prefix needle (String a s)) eqn:Hp.
    + split; [intros _|done]. apply prefix_spec in Hp as [after Hp].
      exists "", after. by rewrite app_empty_l.
    + rewrite IH. split.
      * intros (before & after & ->). exists (String a before), after.
        by rewrite app_cons.
      * intros (before & after & H).
        destruct before as [|b before].
        -- rewrite app_empty_l in H.
           assert (String.prefix needle (String a s) = true)
             by (apply prefix_spec; eauto).
           congruence.
        -- rewrite app_cons in H. simplify_eq. by exists before, after.
Qed.

Lemma occurs_in_app_l (needle s t : string) :
  occurs_in needle s → occurs_in needle (s +:+ t).
Proof.
  intros (before & after & ->). exists before, (after +:+ t).
  by rewrite !app_assoc_string.
Qed.

Lemma occurs_in_app_r (needle s t : string) :
  occurs_in needle t → occurs_in needle (s +:+ t).
Proof.
  intros (before & after & ->). exists (s +:+ before), after.
  by rewrite !app_assoc_string.
Qed.

Lemma join_cons (sep x : string) (xs : list string) :
  join sep (x :: xs) = match xs with [] => x | _ => x +:+ sep +:+ join sep xs end.
Proof. by destruct xs. Qed.

(** A line of a joined text occurs in the text. *)
Lemma join_occurs (sep x : string) (xs : list string) :
  x ∈ xs → occurs_in x (join sep xs).
Proof.
  induction xs as [|y xs IH]; [by intros ?%elem_of_nil|].
  rewrite join_cons. intros [->|Hin]%elem_of_cons.
  - destruct xs; [exists "", ""; by rewrite app_empty_l, app_empty_r|].
    exists "", (sep +:+ join sep (s :: xs)). by rewrite app_empty_l.
  - destruct xs as [|z xs]; [by apply elem_of_nil in Hin|].
    apply occurs_in_app_r, occurs_in_app_r. auto.
Qed.


(** ** Arrays mapped with a callback that may throw *)

Section MapThrowing.
Context {A B : Type} (f : A → result B).

Lemma map_throwing_Forall2 (xs : list A) (ys : list B) :
  map_throwing f xs = Ok ys ↔ Forall2 (λ x y, f x = Ok y) xs ys.
Proof.
  revert ys. induction xs as [|x xs IH]; intros ys; simpl.
  - split; [intros [= <-]; constructor | by inversion 1].
  - destruct (f x) as [y|e] eqn:Hx; simpl.
    + destruct (map_throwing f xs) as [ys'|e] eqn:Hxs; simpl.
      * split.
        -- intros [= <-]. constructor; [done|]. by apply IH.
        -- inversion 1 as [|? y' ? ys'' Hy Hys]; subst.
           apply IH in Hys. congruence.
      * split; [done|]. inversion 1 as [|? y' ? ys'' Hy Hys]; subst.
        apply IH in Hys. congruence.
    + split; [done|]. inversion 1; congruence.
Qed.

Lemma map_throwing_is_ok (xs : list A) :
  is_ok (map_throwing f xs) = true ↔ Forall (λ x, is_ok (f x) = true) xs.
Proof.
  induction xs as [|x xs IH]; simpl; [by split; [constructor|]|].
  rewrite Forall_cons, <-IH.
  destruct (f x); simpl; [|by split; [|intros [? _]]].
  destruct (map_throwing f xs); simpl; by split; [|intros [_ ?]].
Qed.

(** The first callback that throws decides the exception. *)
Lemma map_throwing_throw (xs : list A) (msg : string) :
  map_throwing f xs = Throw msg → ∃ x, x ∈ xs ∧ f x = Throw msg.
Proof.
  induction xs as [|x xs IH]; simpl; [done|].
  destruct (f x) as [y|e] eqn:Hx; simpl.
  - destruct (map_throwing f xs) as [ys|e]; simpl; [done|].
    intros [= ->]. destruct IH as (x' & ? & ?); [done|].
    exists x'. split; [by right|done].
  - intros [= ->]. exists x. split; [by left|done].
Qed.
End MapThrowing.

(** ** The permission lists of the local descriptor *)

Section PermissionLists.
Import SettingsGenerator.

(** The rules a document declares in one list of one scope; an absent
    section or list declares none. *)
Definition scope_rules (config : GovernanceConfig)
    (scope : Permissions → option RuleLists)
    (which : RuleLists → option (list PermissionRule)) : list PermissionRule :=
  default [] ((permissions config ≫= scope) ≫= which).

(** A list of the descriptor as the consumer reads it: an absent key or
    section is an empty list. *)
Definition descriptor_list (settings : ClaudeSettings)
    (which : ClaudePermissions → option (list string)) : list string :=
  default [] (settings_permissions settings ≫= which).

(** The key is written only when there is something to put under it. *)
Definition present_if_nonempty (l : list string) : option (list string) :=
  match l with
  | [] => None
  | _ :: _ => Some l
  end.

Definition file_format (r : PermissionRule) : result string :=
  formatFilePermission r "Read|Write|Edit".

(** [out] is the rendering of [rules], one string per rule, in order. *)
Definition rendered_as (fmt : PermissionRule → result string)
    (rules : list PermissionRule) (out : list string) : Prop :=
  Forall2 (λ r s, fmt r = Ok s) rules out.

(** The three lists of a scope, with the field that declares each in the
    document and the key that carries it in the descriptor. *)
Inductive ListKind : Type := Deny | Ask | Allow.

Definition declared (k : ListKind) : RuleLists → option (list PermissionRule) :=
  match k with
  | Deny => deny
  | Ask => ask
  | Allow => allow
  end.

Definition emitted (k : ListKind) : ClaudePermissions → option (list string) :=
  match k with
  | Deny => out_deny
  | Ask => out_ask
  | Allow => out_allow
  end.

(** The descriptor's list [k] is the rendered filesystem rules of the
    document's list [k] followed by its rendered command rules, and the
    key is absent exactly when that concatenation is empty. *)
Definition files_then_commands (config : GovernanceConfig)
    (perms : option ClaudePermissions) (k : ListKind) : Prop :=
  ∃ from_files from_commands,
    rendered_as file_format (scope_rules config filesystem (declared k)) from_files ∧
    rendered_as formatBashPermission
      (scope_rules config commands (declared k)) from_commands ∧
    perms ≫= emitted k = present_if_nonempty (from_files ++ from_commands).

Lemma push_rules_ok fmt target rules out :
  push_rules fmt target rules = Ok out →
  ∃ formatted,
    rendered_as fmt (default [] rules) formatted ∧
    out = match formatted with
          | [] => target
          | _ :: _ => Some (default [] target ++ formatted)
          end.
Proof.
  unfold push_rules. destruct rules as [[|r rs]|]; simpl.
  - intros [= <-]. exists []. split; [constructor|done].
  - destruct (fmt r) as [s|e] eqn:Hr; simpl; [|done].
    destruct (map_throwing fmt rs) as [ss|e] eqn:Hrs; simpl; [|done].
    intros [= <-]. exists (s :: ss). split; [|done].
    constructor; [done|]. by apply map_throwing_Forall2.
  - intros [= <-]. exists []. split; [constructor|done].
Qed.

Lemma push_rules_is_ok fmt target rules :
  is_ok (push_rules fmt target rules) = true ↔
  Forall (λ r, is_ok (fmt r) = true) (default [] rules).
Proof.
  unfold push_rules. destruct rules as [[|r rs]|]; simpl.
  - by split; [constructor|].
  - rewrite <-(map_throwing_is_ok fmt (r :: rs)). simpl.
    destruct (fmt r); simpl; [|done].
    by destruct (map_throwing fmt rs).
  - by split; [constructor|].
Qed.

Lemma push_scope_ok fmt acc scope acc' (k : ListKind) :
  push_scope fmt acc scope = Ok acc' →
  ∃ formatted,
    rendered_as fmt (default [] (scope ≫= declared k)) formatted ∧
    emitted k acc' = match formatted with
                     | [] => emitted k acc
                     | _ :: _ => Some (default [] (emitted k acc) ++ formatted)
                     end.
Proof.
  unfold push_scope. destruct scope as [lists|]; simpl.
  - destruct (push_rules fmt (out_deny acc) (deny lists)) as [d|e] eqn:Hd; [|done].
    destruct (push_rules fmt (out_ask acc) (ask lists)) as [a|e] eqn:Ha; [|done].
    destruct (push_rules fmt (out_allow acc) (allow lists)) as [al|e] eqn:Hal; [|done].
    simpl. intros [= <-]. destruct k; simpl; by apply push_rules_ok.
  - intros [= <-]. exists []. split; [constructor|done].
Qed.

Lemma push_scope_is_ok fmt acc scope :
  is_ok (push_scope fmt acc scope) = true ↔
  ∀ k, Forall (λ r, is_ok (fmt r) = true) (default [] (scope ≫= declared k)).
Proof.
  unfold push_scope. destruct scope as [lists|]; simpl.
  - pose proof (push_rules_is_ok fmt (out_deny acc) (deny lists)) as Hd.
    pose proof (push_rules_is_ok fmt (out_ask acc) (ask lists)) as Ha.
    pose proof (push_rules_is_ok fmt (out_allow acc) (allow lists)) as Hal.
    destruct (push_rules fmt (out_deny acc) (deny lists)); simpl in *;
      [|split; [done|intros H; apply Hd, (H Deny)]].
    destruct (push_rules fmt (out_ask acc) (ask lists)); simpl in *;
      [|split; [done|intros H; apply Ha, (H Ask)]].
    destruct (push_rules fmt (out_allow acc) (allow lists)); simpl in *;
      [|split; [done|intros H; apply Hal, (H Allow)]].
    split; [|done]. intros _ [| |]; simpl; [apply Hd | apply Ha | apply Hal]; done.
  - split; [|done]. intros _ k. constructor.
Qed.

Lemma generatePermissions_ok config perms (k : ListKind) :
  generatePermissions config = Ok perms →
  files_then_commands config (Some perms) k.
Proof.
  unfold generatePermissions. intros Hgen.
  destruct (push_scope _ _ (permissions config ≫= filesystem))
    as [mid|e] eqn:Hfs; [|done].
  simpl in Hgen.
  destruct (push_scope_ok _ _ _ _ k Hfs) as (fs & Hfs1 & Hfs2).
  destruct (push_scope_ok _ _ _ _ k Hgen) as (cs & Hcs1 & Hcs2).
  exists fs, cs. split_and!; [done..|].
  simpl. rewrite Hcs2, Hfs2.
  assert (emitted k {| out_allow := None; out_deny := None; out_ask := None |} = None)
    as -> by (by destruct k).
  destruct fs, cs; simpl; by rewrite ?app_nil_r.
Qed.

Lemma generatePermissions_is_ok config :
  is_ok (generatePermissions config) = true ↔
  ∀ k,
    Forall (λ r, is_ok (file_format r) = true)
      (scope_rules config filesystem (declared k)) ∧
    Forall (λ r, is_ok (formatBashPermission r) = true)
      (scope_rules config commands (declared k)).
Proof.
  unfold generatePermissions.
  pose proof (push_scope_is_ok file_format
    {| out_allow := None; out_deny := None; out_ask := None |}
    (permissions config ≫= filesystem)) as Hfs.
  unfold file_format in Hfs at 1.
  destruct (push_scope _ _ (permissions config ≫= filesystem)) as [mid|e]; simpl in *.
  - rewrite push_scope_is_ok. split.
    + intros Hcs k. split; [by apply Hfs | apply Hcs].
    + intros H k. apply H.
  - split; [done|]. intros H. apply Hfs. intros k. apply H.
Qed.

(** The descriptor carries a permissions section exactly when the document
    does, and it is the one [generatePermissions] builds. *)
Lemma generate_permissions config settings :
  generate config = Ok settings →
  match permissions config with
  | Some _ =>
      ∃ perms, generatePermissions config = Ok perms ∧
               settings_permissions settings = Some perms
  | None => settings_permissions settings = None
  end.
Proof.
  unfold generate. destruct (permissions config) as [p|]; simpl.
  - destruct (generatePermissions config) as [perms|e]; simpl; [|done].
    intros [= <-]. by exists perms.
  - by intros [= <-].
Qed.

Lemma generate_files_then_commands config settings (k : ListKind) :
  generate config = Ok settings →
  files_then_commands config (settings_permissions settings) k.
Proof.
  intros Hgen. pose proof (generate_permissions _ _ Hgen) as Hp.
  destruct (permissions config) as [p|] eqn:Hcfg.
  - destruct Hp as (perms & Hperms & ->). by apply generatePermissions_ok.
  - rewrite Hp. exists [], [].
    unfold scope_rules. rewrite Hcfg. simpl. split_and!; by try constructor.
Qed.
End PermissionLists.

(** ** The hook bindings of the local descriptor *)

Section HookBindings.
Import SettingsGenerator.

(** An optional string that a truthiness test rejects: absent, or present
    and empty. *)
Definition blank (o : option string) : Prop := o = None ∨ o = Some "".

Lemma opt_string_truthy_false (o : option string) :
  opt_string_truthy o = false ↔ blank o.
Proof.
  unfold blank. destruct o as [[|a s]|]; simpl; split; auto; try done.
  intros [?|?]; congruence.
Qed.

Lemma opt_string_truthy_true (o : option string) :
  opt_string_truthy o = true ↔ ∃ s, o = Some s ∧ s ≠ "".
Proof.
  destruct o as [[|a s]|]; simpl; split; try done.
  - intros (s & Heq & Hne). by simplify_eq.
  - intros _. by exists (String a s).
  - intros (s & Heq & _). done.
Qed.

(** The element pushed for a gate. *)
Definition gate_binding (gate : ApprovalGate) : HookBinding :=
  {| matcher := gate_matcher gate; hooks := [gate_hookConfig gate] |}.

Lemma hookEvent_constant (gate : ApprovalGate) : hookEvent gate = "PreToolUse".
Proof.
  unfold hookEvent.
  destruct (opt_string_truthy (command_pattern (trigger gate))); [done|].
  by destruct (opt_string_truthy (path_pattern (trigger gate))).
Qed.

Lemma add_gate_unfold acc (gate : ApprovalGate) :
  add_gate acc gate =
    <["PreToolUse" := default [] (acc !! "PreToolUse") ++ [gate_binding gate]]> acc.
Proof. unfold add_gate. by rewrite hookEvent_constant. Qed.

(** The loop appends the bindings of the gates, in order, to the one list
    it ever touches. *)
Lemma foldl_add_gate (gates : list ApprovalGate) (acc : gmap string (list HookBinding)) :
  gates ≠ [] →
  foldl add_gate acc gates =
    <["PreToolUse" := default [] (acc !! "PreToolUse") ++ map gate_binding gates]> acc.
Proof.
  revert acc. induction gates as [|g gates IH]; intros acc Hne; [done|].
  simpl foldl. rewrite add_gate_unfold.
  destruct gates as [|g' gates]; [done|].
  rewrite IH by done.
  rewrite lookup_insert_eq, insert_insert_eq. simpl default.
  by rewrite <-(assoc_L (++)).
Qed.

Lemma generateHooksConfig_gates (config : GovernanceConfig) (gates : list ApprovalGate) :
  approval_gates config = Some gates → gates ≠ [] →
  generateHooksConfig config = {[ "PreToolUse" := map gate_binding gates ]}.
Proof.
  unfold generateHooksConfig. intros -> Hne.
  destruct gates as [|g gates]; [done|].
  rewrite foldl_add_gate by done. by rewrite lookup_empty.
Qed.

Lemma generateHooksConfig_no_gates (config : GovernanceConfig) :
  approval_gates config = None ∨ approval_gates config = Some [] →
  generateHooksConfig config = ∅.
Proof. unfold generateHooksConfig. by intros [-> | ->]. Qed.

(** The [hooks] key of the descriptor. *)
Lemma generate_hooks (config : GovernanceConfig) (settings : ClaudeSettings) :
  generate config = Ok settings →
  settings_hooks settings =
    match approval_gates config with
    | Some ((_ :: _) as gates) => Some {[ "PreToolUse" := map gate_binding gates ]}
    | Some [] => None
    | None => None
    end.
Proof.
  unfold generate.
  destruct (match permissions config with
            | Some _ => Some <$> generatePermissions config
            | None => Ok None
            end) as [perms|e]; simpl; [|done].
  intros [= <-]. simpl.
  destruct (approval_gates config) as [[|g gates]|] eqn:Hg.
  - by rewrite generateHooksConfig_no_gates by auto.
  - rewrite (generateHooksConfig_gates _ (g :: gates)) by done.
    by rewrite map_size_singleton.
  - by rewrite generateHooksConfig_no_gates by auto.
Qed.

End HookBindings.

(** ** Sample documents *)

(** The "Minimal Governance" example of the README. *)
Definition readme_gate : ApprovalGate :=
  {| gate_name := "production-deployment";
     trigger := {| tool := None; path_pattern := None;
                   command_pattern := Some "git push .* main" |};
     action := {| action_type := prompt_action; action_command := None;
                  action_prompt := Some "Deploy to production?";
                  action_timeout := None |} |}.

Definition readme_config : GovernanceConfig :=
  {| version := "1.0";
     project := "my-app";
     description := None;
     data_classification := None;
     permissions := Some
       {| filesystem := Some
            {| deny := Some [ {| rule_path := Some ".env*"; rule_pattern := None;
                                 rule_reason := Some "Use environment variables" |} ];
               ask := None; allow := None |};
          commands := Some
            {| deny := Some [ {| rule_path := None; rule_pattern := Some "rm -rf *";
                                 rule_reason := None |};
                              {| rule_path := None;
                                 rule_pattern := Some "git push --force*";
                                 rule_reason := None |} ];
               ask := None; allow := None |};
          network := None |};
     secrets := Some
       {| secrets_policy := None; allowed_sources := None;
          detection := Some
            {| patterns := Some [ {| secret_pattern := "AKIA[0-9A-Z]{16}";
                                     secret_name := Some "AWS Access Key" |} ] |};
          secrets_enforcement := Some
            {| secrets_hook := None; secrets_action := Some "block";
               secrets_message := None |} |};
     approval_gates := Some [readme_gate];
     operational := None;
     testing := None;
     roles := None;
     audit := None;
     sandbox := None;
     compliance := None;
     cost_controls := None |}.

(** The descriptor the README example compiles to. *)
Definition readme_settings : SettingsGenerator.ClaudeSettings :=
  {| SettingsGenerator.settings_permissions := Some
       {| SettingsGenerator.out_allow := None;
          SettingsGenerator.out_deny :=
            Some ["Read|Write|Edit(.env*)"; "Bash(rm -rf *)"; "Bash(git push --force*)"];
          SettingsGenerator.out_ask := None |};
     SettingsGenerator.settings_sandbox := None;
     SettingsGenerator.settings_hooks := Some
       {[ "PreToolUse" :=
            [ {| SettingsGenerator.matcher := "Bash";
                 SettingsGenerator.hooks :=
                   [ {| SettingsGenerator.hook_type := prompt_action;
                        SettingsGenerator.hook_command := None;
                        SettingsGenerator.hook_prompt := Some "Deploy to production?";
                        SettingsGenerator.hook_timeout := None |} ] |} ] ]};
     SettingsGenerator.defaultMode := None |}.

Example readme_generate : SettingsGenerator.generate readme_config = Ok readme_settings.
Proof. vm_compute. reflexivity. Qed.

(** The README example with a second gate, on infrastructure files. *)
Definition infrastructure_gate : ApprovalGate :=
  {| gate_name := "infrastructure-change";
     trigger := {| tool := None; path_pattern := Some "infrastructure/**";
                   command_pattern := None |};
     action := {| action_type := command_action;
                  action_command := Some "./scripts/review.sh";
                  action_prompt := None;
                  action_timeout := Some (S754_finite false 15 1) |} |}.

Definition infrastructure_config : GovernanceConfig :=
  {| version := version readme_config;
     project := project readme_config;
     description := Some "Infrastructure changes need a review";
     data_classification := None;
     permissions := permissions readme_config;
     secrets := secrets readme_config;
     approval_gates := Some [readme_gate; infrastructure_gate];
     operational := None;
     testing := None;
     roles := None;
     audit := None;
     sandbox := Some {| sandbox_enabled := Some true; sandbox_mode := Some regular;
                        sandbox_filesystem := None; sandbox_network := None;
                        excluded_commands := Some ["docker"] |};
     compliance := None;
     cost_controls := None |}.

Example infrastructure_hooks :
  SettingsGenerator.settings_hooks <$> SettingsGenerator.generate infrastructure_config
  = Ok (Some
      {[ "PreToolUse" :=
           [ {| SettingsGenerator.matcher := "Bash";
                SettingsGenerator.hooks :=
                  [ {| SettingsGenerator.hook_type := prompt_action;
                       SettingsGenerator.hook_command := None;
                       SettingsGenerator.hook_prompt := Some "Deploy to production?";
                       SettingsGenerator.hook_timeout := None |} ] |};
             {| SettingsGenerator.matcher := "Edit|Write";
                SettingsGenerator.hooks :=
                  [ {| SettingsGenerator.hook_type := command_action;
                       SettingsGenerator.hook_command := Some "./scripts/review.sh";
                       SettingsGenerator.hook_prompt := None;
                       SettingsGenerator.hook_timeout :=
                         Some (S754_finite false 15 1) |} ] |} ] ]}).
Proof. vm_compute. reflexivity. Qed.

Example infrastructure_sandbox :
  SettingsGenerator.settings_sandbox <$> SettingsGenerator.generate infrastructure_config
  = Ok (Some
      {| SettingsGenerator.enabled := Some true;
         SettingsGenerator.mode := Some "regular";
         SettingsGenerator.allowedDomains := None;
         SettingsGenerator.blockedDomains := None;
         SettingsGenerator.allowedPaths := None;
         SettingsGenerator.blockedPaths := None;
         SettingsGenerator.excludedCommands := Some ["docker"] |}).
Proof. vm_compute. reflexivity. Qed.

Example readme_secret_patterns :
  WorkflowGenerator.secretPatterns (WorkflowGenerator.template_data readme_config)
  = [ {| secret_pattern := "AKIA[0-9A-Z]{16}"; secret_name := Some "AWS Access Key" |} ].
Proof. reflexivity. Qed.

Example includes_samples :
  includes "modules/vpc/main.tf" ".tf" = true ∧
  includes "src/**/*.ts" ".tf" = false ∧
  includes "" "" = true ∧
  includes "infra" "infrastructure/" = false.
Proof. vm_compute. auto. Qed.

(** A document whose only filesystem rule carries an empty path. *)
Definition empty_path_config : GovernanceConfig :=
  {| version := "1.0";
     project := "my-app";
     description := None;
     data_classification := None;
     permissions := Some
       {| filesystem := Some
            {| deny := Some [ {| rule_path := Some ""; rule_pattern := None;
                                 rule_reason := None |} ];
               ask := None; allow := None |};
          commands := None;
          network := None |};
     secrets := None;
     approval_gates := None;
     operational := None;
     testing := None;
     roles := None;
     audit := None;
     sandbox := None;
     compliance := None;
     cost_controls := None |}.

(** A gate whose trigger carries an empty tool name next to a command
    pattern. *)
Definition empty_tool_gate : ApprovalGate :=
  {| gate_name := "push";
     trigger := {| tool := Some ""; path_pattern := None;
                   command_pattern := Some "git push" |};
     action := {| action_type := prompt_action; action_command := None;
                  action_prompt := Some "Push?"; action_timeout := None |} |}.

(** ** Claims about the permission lists *)

Section PermissionClaims.
Import SettingsGenerator.

(** C2.  Whenever the settings projector produces a descriptor, each of its
    deny, ask and allow lists is the rendering of the document's filesystem
    rules of that list, in declaration order, followed by the rendering of
    its command rules of that list, in declaration order (the key is absent
    when both are empty); no list receives a rule of another list. *)
Theorem descriptor_lists_files_then_commands
    (config : GovernanceConfig) (settings : ClaudeSettings) :
  generate config = Ok settings →
  files_then_commands config (settings_permissions settings) Deny ∧
  files_then_commands config (settings_permissions settings) Ask ∧
  files_then_commands config (settings_permissions settings) Allow.
Proof.
  intros Hgen. split_and!; by apply generate_files_then_commands.
Qed.

Lemma descriptor_lists_files_then_commands_witness :
  files_then_commands readme_config (settings_permissions readme_settings) Deny ∧
  files_then_commands readme_config (settings_permissions readme_settings) Ask ∧
  files_then_commands readme_config (settings_permissions readme_settings) Allow.
Proof.
  apply (descriptor_lists_files_then_commands readme_config readme_settings).
  vm_compute. reflexivity.
Defined.

Lemma formatFilePermission_ok (r : PermissionRule) (tools p : string) :
  rule_path r = Some p → p ≠ "" →
  formatFilePermission r tools = Ok (tools +:+ "(" +:+ p +:+ ")").
Proof.
  intros Hp Hne. unfold formatFilePermission. rewrite Hp.
  destruct p as [|a p]; [done|].
  cbn [opt_string_truthy string_truthy negb interpolate].
  by destruct (includes (String a p) "*").
Qed.

Lemma formatFilePermission_blank (r : PermissionRule) (tools : string) :
  blank (rule_path r) →
  formatFilePermission r tools = Throw "Filesystem permission rule must have a path".
Proof.
  intros Hb%opt_string_truthy_false. unfold formatFilePermission. by rewrite Hb.
Qed.

Lemma formatBashPermission_ok (r : PermissionRule) (p : string) :
  rule_pattern r = Some p → p ≠ "" →
  formatBashPermission r = Ok ("Bash(" +:+ p +:+ ")").
Proof.
  intros Hp Hne. unfold formatBashPermission. rewrite Hp.
  by destruct p as [|a p].
Qed.

Lemma formatBashPermission_blank (r : PermissionRule) :
  blank (rule_pattern r) →
  formatBashPermission r = Throw "Command permission rule must have a pattern".
Proof.
  intros Hb%opt_string_truthy_false. unfold formatBashPermission. by rewrite Hb.
Qed.

Lemma blank_dec (o : option string) : blank o ∨ ∃ s, o = Some s ∧ s ≠ "".
Proof.
  destruct (opt_string_truthy o) eqn:E.
  - right. by apply opt_string_truthy_true.
  - left. by apply opt_string_truthy_false.
Qed.

Lemma formatFilePermission_inv (r : PermissionRule) (tools s : string) :
  formatFilePermission r tools = Ok s →
  ∃ p, rule_path r = Some p ∧ p ≠ "" ∧ s = tools +:+ "(" +:+ p +:+ ")".
Proof.
  destruct (blank_dec (rule_path r)) as [Hb|(p & Hp & Hne)].
  - by rewrite formatFilePermission_blank.
  - rewrite (formatFilePermission_ok _ _ p) by done. intros [= <-]. eauto.
Qed.

Lemma formatBashPermission_inv (r : PermissionRule) (s : string) :
  formatBashPermission r = Ok s →
  ∃ p, rule_pattern r = Some p ∧ p ≠ "" ∧ s = "Bash(" +:+ p +:+ ")".
Proof.
  destruct (blank_dec (rule_pattern r)) as [Hb|(p & Hp & Hne)].
  - by rewrite formatBashPermission_blank.
  - rewrite (formatBashPermission_ok _ p) by done. intros [= <-]. eauto.
Qed.

(** Positions in a descriptor list: filesystem rule [i] lands at [i],
    command rule [j] lands at [j] past the filesystem rules. *)
Lemma descriptor_list_positions (config : GovernanceConfig) (settings : ClaudeSettings)
    (k : ListKind) :
  generate config = Ok settings →
  (∀ i r, scope_rules config filesystem (declared k) !! i = Some r →
     ∃ s, file_format r = Ok s ∧ descriptor_list settings (emitted k) !! i = Some s) ∧
  (∀ j r, scope_rules config commands (declared k) !! j = Some r →
     ∃ s, formatBashPermission r = Ok s ∧
          descriptor_list settings (emitted k)
            !! (length (scope_rules config filesystem (declared k)) + j) = Some s).
Proof.
  intros Hgen.
  destruct (generate_files_then_commands _ _ k Hgen) as (fs & cs & Hfs & Hcs & Hout).
  assert (descriptor_list settings (emitted k) = fs ++ cs) as ->.
  { unfold descriptor_list. rewrite Hout. by destruct (fs ++ cs). }
  split.
  - intros i r Hi.
    destruct (Forall2_lookup_l _ _ _ _ _ Hfs Hi) as (s & Hs & Hfmt).
    exists s. split; [done|]. by apply lookup_app_l_Some.
  - intros j r Hj.
    destruct (Forall2_lookup_l _ _ _ _ _ Hcs Hj) as (s & Hs & Hfmt).
    exists s. split; [done|].
    rewrite (Forall2_length _ _ _ Hfs), lookup_app_r by lia.
    by replace (length fs + j - length fs) with j by lia.
Qed.

(** C3.  A filesystem rule whose path is the glob dot-env-star renders as
    exactly the capability label Read|Write|Edit followed by that glob in
    parentheses; in the descriptor it sits in the deny list at the index it
    has among the document's filesystem deny rules; a command rule renders
    as the label Bash followed by its pattern in parentheses, the pattern
    copied unchanged, and sits in the deny list after all filesystem deny
    rules, at its own index among the command deny rules. *)
Theorem env_rule_rendering :
  (∀ pattern reason,
     file_format {| rule_path := Some ".env*"; rule_pattern := pattern;
                    rule_reason := reason |} = Ok "Read|Write|Edit(.env*)") ∧
  (∀ config settings i r,
     generate config = Ok settings →
     scope_rules config filesystem deny !! i = Some r →
     rule_path r = Some ".env*" →
     descriptor_list settings out_deny !! i = Some "Read|Write|Edit(.env*)") ∧
  (∀ r s, formatBashPermission r = Ok s →
     ∃ p, rule_pattern r = Some p ∧ s = "Bash(" +:+ p +:+ ")") ∧
  (∀ config settings j r,
     generate config = Ok settings →
     scope_rules config commands deny !! j = Some r →
     ∃ p, rule_pattern r = Some p ∧
          descriptor_list settings out_deny
            !! (length (scope_rules config filesystem deny) + j)
          = Some ("Bash(" +:+ p +:+ ")")).
Proof.
  split_and!.
  - done.
  - intros config settings i r Hgen Hi Hpath.
    destruct (descriptor_list_positions config settings Deny Hgen) as [Hfs _].
    cbn [emitted declared] in Hfs.
    destruct (Hfs i r Hi) as (s & Hfmt & Hs).
    unfold file_format in Hfmt.
    rewrite (formatFilePermission_ok _ _ ".env*") in Hfmt by done.
    injection Hfmt as <-. rewrite Hs. reflexivity.
  - intros r s (p & Hp & _ & ->)%formatBashPermission_inv. eauto.
  - intros config settings j r Hgen Hj.
    destruct (descriptor_list_positions config settings Deny Hgen) as [_ Hcs].
    cbn [emitted declared] in Hcs.
    destruct (Hcs j r Hj) as (s & (p & Hp & _ & ->)%formatBashPermission_inv & Hs).
    eauto.
Qed.

Lemma env_rule_rendering_witness :
  descriptor_list readme_settings out_deny !! 0 = Some "Read|Write|Edit(.env*)" ∧
  ∃ p, Some "git push --force*" = Some p ∧
       descriptor_list readme_settings out_deny !! (1 + 1) = Some ("Bash(" +:+ p +:+ ")").
Proof.
  destruct env_rule_rendering as (_ & Hfile & _ & Hcmd). split.
  - apply (Hfile readme_config readme_settings 0
             {| rule_path := Some ".env*"; rule_pattern := None;
                rule_reason := Some "Use environment variables" |});
      vm_compute; reflexivity.
  - apply (Hcmd readme_config readme_settings 1
             {| rule_path := None; rule_pattern := Some "git push --force*";
                rule_reason := None |});
      vm_compute; reflexivity.
Defined.

End PermissionClaims.

(** ** Claims about rule-format errors *)

Section RuleFormatClaims.
Import SettingsGenerator.

(** Every rule of every list of the document carries a field that passes
    the truthiness test of its scope's formatter. *)
Definition rules_carry_nonempty_fields (config : GovernanceConfig) : Prop :=
  ∀ k,
    Forall (λ r, ¬ blank (rule_path r)) (scope_rules config filesystem (declared k)) ∧
    Forall (λ r, ¬ blank (rule_pattern r)) (scope_rules config commands (declared k)).

(** Every rule of every list carries the field of its scope, whatever its
    value. *)
Definition rules_carry_fields (config : GovernanceConfig) : Prop :=
  ∀ k,
    Forall (λ r, is_Some (rule_path r)) (scope_rules config filesystem (declared k)) ∧
    Forall (λ r, is_Some (rule_pattern r)) (scope_rules config commands (declared k)).

Lemma file_format_is_ok (r : PermissionRule) :
  is_ok (file_format r) = true ↔ ¬ blank (rule_path r).
Proof.
  unfold file_format. destruct (blank_dec (rule_path r)) as [Hb|(p & Hp & Hne)].
  - rewrite formatFilePermission_blank by done. simpl. by split.
  - rewrite (formatFilePermission_ok _ _ p) by done. simpl. split; [|done].
    intros _ [?|?]; congruence.
Qed.

Lemma formatBashPermission_is_ok (r : PermissionRule) :
  is_ok (formatBashPermission r) = true ↔ ¬ blank (rule_pattern r).
Proof.
  destruct (blank_dec (rule_pattern r)) as [Hb|(p & Hp & Hne)].
  - rewrite formatBashPermission_blank by done. simpl. by split.
  - rewrite (formatBashPermission_ok _ p) by done. simpl. split; [|done].
    intros _ [?|?]; congruence.
Qed.

Lemma generate_is_ok (config : GovernanceConfig) :
  is_ok (generate config) = true ↔ rules_carry_nonempty_fields config.
Proof.
  unfold rules_carry_nonempty_fields.
  assert (is_ok (generate config) = true ↔
          (permissions config = None ∨ is_ok (generatePermissions config) = true))
    as ->.
  { unfold generate. destruct (permissions config) as [p|]; simpl.
    - destruct (generatePermissions config); simpl; split; auto.
      intros [?|?]; done.
    - split; auto. }
  split.
  - intros [Hnone|Hok] k.
    + unfold scope_rules. rewrite Hnone. simpl. split; constructor.
    + pose proof (proj1 (generatePermissions_is_ok config) Hok k) as [Hfs Hcs].
      split; (eapply Forall_impl; [eassumption|]); simpl; intros r.
      * apply file_format_is_ok.
      * apply formatBashPermission_is_ok.
  - intros H. right. apply generatePermissions_is_ok. intros k.
    destruct (H k) as [Hfs Hcs].
    split; (eapply Forall_impl; [eassumption|]); simpl; intros r.
    + apply file_format_is_ok.
    + apply formatBashPermission_is_ok.
Qed.

Lemma push_scope_throw fmt acc scope msg :
  push_scope fmt acc scope = Throw msg →
  ∃ k r, r ∈ default [] (scope ≫= declared k) ∧ fmt r = Throw msg.
Proof.
  assert (∀ target rules, push_rules fmt target rules = Throw msg →
            ∃ r, r ∈ default [] rules ∧ fmt r = Throw msg) as Hpush.
  { intros target [[|r rs]|]; [done| |done].
    intros Hthrow. apply (map_throwing_throw fmt (r :: rs)).
    change (push_rules fmt target (Some (r :: rs)))
      with (map_throwing fmt (r :: rs)
              ≫= λ formatted, Ok (Some (default [] target ++ formatted))) in Hthrow.
    destruct (map_throwing fmt (r :: rs)) as [ss|e]; [done|].
    by injection Hthrow as ->. }
  unfold push_scope. destruct scope as [lists|]; simpl; [|done].
  destruct (push_rules fmt (out_deny acc) (deny lists)) as [d|e] eqn:Hd; simpl.
  - destruct (push_rules fmt (out_ask acc) (ask lists)) as [a|e] eqn:Ha; simpl.
    + destruct (push_rules fmt (out_allow acc) (allow lists)) as [al|e] eqn:Hal;
        simpl; [done|].
      intros [= ->]. exists Allow. by apply (Hpush (out_allow acc)).
    + intros [= ->]. exists Ask. by apply (Hpush (out_ask acc)).
  - intros [= ->]. exists Deny. by apply (Hpush (out_deny acc)).
Qed.

(** The only exceptions of the settings projector are the two rule-format
    errors, each caused by a rule of the matching scope whose field is
    absent or empty. *)
Lemma generate_throw (config : GovernanceConfig) (msg : string) :
  generate config = Throw msg →
  (msg = "Filesystem permission rule must have a path" ∧
   ∃ k r, r ∈ scope_rules config filesystem (declared k) ∧ blank (rule_path r)) ∨
  (msg = "Command permission rule must have a pattern" ∧
   ∃ k r, r ∈ scope_rules config commands (declared k) ∧ blank (rule_pattern r)).
Proof.
  unfold generate. destruct (permissions config) as [p|] eqn:Hp; simpl; [|done].
  destruct (generatePermissions config) as [perms|e] eqn:Hgen; simpl; [done|].
  intros [= ->]. unfold generatePermissions in Hgen. rewrite Hp in Hgen. simpl in Hgen.
  destruct (push_scope _ _ (filesystem p)) as [mid|e] eqn:Hfs; simpl in Hgen.
  - right. apply push_scope_throw in Hgen as (k & r & Hin & Hthrow).
    destruct (blank_dec (rule_pattern r)) as [Hb|(s & Hs & Hne)].
    + rewrite formatBashPermission_blank in Hthrow by done.
      injection Hthrow as <-. split; [done|]. exists k, r.
      unfold scope_rules. rewrite Hp. done.
    + by rewrite (formatBashPermission_ok _ s) in Hthrow.
  - injection Hgen as ->. left.
    apply push_scope_throw in Hfs as (k & r & Hin & Hthrow).
    destruct (blank_dec (rule_path r)) as [Hb|(s & Hs & Hne)].
    + rewrite formatFilePermission_blank in Hthrow by done.
      injection Hthrow as <-. split; [done|]. exists k, r.
      unfold scope_rules. rewrite Hp. done.
    + by rewrite (formatFilePermission_ok _ _ s) in Hthrow.
Qed.

(** C5, as stated, fails: the document [empty_path_config] passes the schema
    (its rule carries the [path] field), yet rendering raises the
    filesystem rule-format error. *)
Lemma empty_path_rule_is_rejected :
  rules_carry_fields empty_path_config ∧
  generate empty_path_config = Throw "Filesystem permission rule must have a path".
Proof.
  split; [|reflexivity].
  intros k. destruct k; vm_compute; split; repeat constructor; eauto.
Qed.

(** C5, amended.  Rendering a filesystem rule whose path is absent or
    empty, or a command rule whose pattern is absent or empty, raises the
    descriptive error of its scope; these are raised by the projector, on a
    model the schema has accepted, and are its only exceptions; and the
    projector succeeds exactly when every rule carries a non-empty field
    of its scope. *)
Theorem rule_format_errors :
  (∀ r tools, blank (rule_path r) →
     formatFilePermission r tools = Throw "Filesystem permission rule must have a path") ∧
  (∀ r, blank (rule_pattern r) →
     formatBashPermission r = Throw "Command permission rule must have a pattern") ∧
  (∀ config msg, generate config = Throw msg →
     (msg = "Filesystem permission rule must have a path" ∧
      ∃ k r, r ∈ scope_rules config filesystem (declared k) ∧ blank (rule_path r)) ∨
     (msg = "Command permission rule must have a pattern" ∧
      ∃ k r, r ∈ scope_rules config commands (declared k) ∧ blank (rule_pattern r))) ∧
  (∀ config, rules_carry_nonempty_fields config ↔ is_ok (generate config) = true).
Proof.
  split_and!.
  - apply formatFilePermission_blank.
  - apply formatBashPermission_blank.
  - apply generate_throw.
  - intros config. symmetry. apply generate_is_ok.
Qed.

Lemma rule_format_errors_witness :
  formatFilePermission
    {| rule_path := None; rule_pattern := Some "rm -rf *"; rule_reason := None |}
    "Read|Write|Edit"
  = Throw "Filesystem permission rule must have a path" ∧
  is_ok (generate readme_config) = true.
Proof.
  destruct rule_format_errors as (Hfile & _ & _ & Hok). split.
  - apply Hfile. left. reflexivity.
  - apply Hok. intros k. destruct k; vm_compute; split; repeat constructor;
      intros [H|H]; discriminate H.
Defined.

End RuleFormatClaims.

(** ** Claims about approval gates *)

Section GateClaims.
Import SettingsGenerator.

(** C4, as stated, fails: [empty_tool_gate] carries a tool name, the empty
    string, yet its matcher is the fixed command matcher and not that name. *)
Lemma empty_tool_name_is_skipped :
  tool (trigger empty_tool_gate) = Some "" ∧
  gate_matcher empty_tool_gate = "Bash" ∧
  ¬ (∀ gate t, tool (trigger gate) = Some t → gate_matcher gate = t).
Proof.
  split_and!; [reflexivity..|].
  intros H. by specialize (H empty_tool_gate "" eq_refl).
Qed.

(** C4, amended.  A gate whose tool name is present and not empty gets that
    name as its matcher, whatever patterns it also carries; otherwise a
    gate with a non-empty command pattern gets "Bash"; otherwise a gate
    with a non-empty path pattern gets "Edit|Write"; and the bindings of
    all gates of a document, in declaration order, are the list under the
    key "PreToolUse", the only key of the hooks map. *)
Theorem gate_matcher_precedence :
  (∀ gate t, tool (trigger gate) = Some t → t ≠ "" → gate_matcher gate = t) ∧
  (∀ gate c, blank (tool (trigger gate)) →
     command_pattern (trigger gate) = Some c → c ≠ "" →
     gate_matcher gate = "Bash") ∧
  (∀ gate p, blank (tool (trigger gate)) → blank (command_pattern (trigger gate)) →
     path_pattern (trigger gate) = Some p → p ≠ "" →
     gate_matcher gate = "Edit|Write") ∧
  (∀ gate, hookEvent gate = "PreToolUse") ∧
  (∀ config gates, approval_gates config = Some gates → gates ≠ [] →
     generateHooksConfig config = {[ "PreToolUse" := map gate_binding gates ]}).
Proof.
  split_and!.
  - intros gate t Ht Hne. unfold gate_matcher. rewrite Ht.
    by destruct t.
  - intros gate c Htool%opt_string_truthy_false Hc Hne. unfold gate_matcher.
    rewrite Htool, Hc. by destruct c.
  - intros gate p Htool%opt_string_truthy_false Hcmd%opt_string_truthy_false Hp Hne.
    unfold gate_matcher. rewrite Htool, Hcmd, Hp. by destruct p.
  - apply hookEvent_constant.
  - apply generateHooksConfig_gates.
Qed.

Lemma gate_matcher_precedence_witness :
  gate_matcher
    {| gate_name := "shell";
       trigger := {| tool := Some "Bash"; path_pattern := Some "*.tf";
                     command_pattern := Some "terraform apply" |};
       action := action readme_gate |} = "Bash" ∧
  gate_matcher readme_gate = "Bash" ∧
  generateHooksConfig readme_config = {[ "PreToolUse" := map gate_binding [readme_gate] ]}.
Proof.
  destruct gate_matcher_precedence as (Htool & Hcmd & _ & _ & Hbind). split_and!.
  - apply Htool; [reflexivity|discriminate].
  - apply (Hcmd readme_gate "git push .* main"); [by left|reflexivity|discriminate].
  - apply Hbind; [reflexivity|discriminate].
Defined.

(** A string field copied under a truthiness guard. *)
Lemma kept_string_iff (o : option string) (s : string) :
  (if opt_string_truthy o then o else None) = Some s ↔ o = Some s ∧ s ≠ "".
Proof.
  destruct o as [[|a o]|]; simpl.
  - split; [done|]. intros [Heq Hne]. by simplify_eq.
  - split; [intros Heq; by simplify_eq | by intros [? _]].
  - split; [done | by intros [? _]].
Qed.

(** The positive zero a document writes as [timeout: 0]. *)
Definition zero : JsNumber := S754_zero false.

(** C10.  The binding built for a gate copies the command, the prompt and
    the timeout of the gate's action exactly when the value is truthy: a
    string that is present and not empty, a number that is present and
    neither zero nor NaN.  A timeout of 0, an empty command and an empty
    prompt therefore leave the field out of the binding; and the bindings
    so built are the ones the descriptor carries. *)
Theorem hook_fields_follow_truthiness (gate : ApprovalGate) :
  (∀ c, hook_command (gate_hookConfig gate) = Some c ↔
        action_command (action gate) = Some c ∧ c ≠ "") ∧
  (∀ p, hook_prompt (gate_hookConfig gate) = Some p ↔
        action_prompt (action gate) = Some p ∧ p ≠ "") ∧
  (∀ n, hook_timeout (gate_hookConfig gate) = Some n ↔
        action_timeout (action gate) = Some n ∧ number_truthy n = true) ∧
  (action_timeout (action gate) = Some zero → hook_timeout (gate_hookConfig gate) = None) ∧
  (action_command (action gate) = Some "" → hook_command (gate_hookConfig gate) = None) ∧
  (action_prompt (action gate) = Some "" → hook_prompt (gate_hookConfig gate) = None) ∧
  hook_type (gate_hookConfig gate) = action_type (action gate) ∧
  (∀ config settings gates,
     generate config = Ok settings →
     approval_gates config = Some gates → gate ∈ gates →
     ∃ bindings,
       settings_hooks settings ≫= (.!! "PreToolUse") = Some bindings ∧
       {| matcher := gate_matcher gate; hooks := [gate_hookConfig gate] |} ∈ bindings).
Proof.
  unfold gate_hookConfig. simpl. split_and!.
  - intros c. apply kept_string_iff.
  - intros p. apply kept_string_iff.
  - intros n. destruct (action_timeout (action gate)) as [m|]; simpl.
    + destruct (number_truthy m) eqn:Hm; split; try done.
      * by intros [= ->].
      * by intros [-> _].
      * intros [[= ->] ?]. congruence.
    + split; [done|]. by intros [? _].
  - by intros ->.
  - by intros ->.
  - by intros ->.
  - done.
  - intros config settings gates Hgen Hgates Hin.
    rewrite (generate_hooks _ _ Hgen), Hgates.
    destruct gates as [|g gates]; [by apply elem_of_nil in Hin|].
    exists (map gate_binding (g :: gates)). split.
    + simpl. by rewrite lookup_singleton_eq.
    + by apply (list_elem_of_fmap_2 gate_binding).
Qed.

Lemma hook_fields_follow_truthiness_witness :
  hook_timeout (gate_hookConfig
    {| gate_name := "deploy";
       trigger := trigger readme_gate;
       action := {| action_type := command_action; action_command := Some "";
                    action_prompt := Some ""; action_timeout := Some zero |} |}) = None.
Proof.
  apply hook_fields_follow_truthiness. reflexivity.
Defined.

End GateClaims.

(** ** Claims about the workflow data *)

Section WorkflowClaims.
Import WorkflowGenerator.

Lemma gate_touches_infrastructure_spec (gate : ApprovalGate) :
  gate_touches_infrastructure gate = true ↔
  ∃ p, path_pattern (trigger gate) = Some p ∧
       (occurs_in ".tf" p ∨ occurs_in "infrastructure/" p).
Proof.
  unfold gate_touches_infrastructure.
  destruct (path_pattern (trigger gate)) as [p|].
  - rewrite orb_true_iff, !includes_spec. split.
    + intros H. by exists p.
    + intros (p' & Heq & H). by simplify_eq.
  - split; [done|]. by intros (p & Heq & _).
Qed.

(** C9.  The infrastructure-as-code flag of the workflow data is true
    exactly when some approval gate of the document has a path pattern in
    which ".tf" or "infrastructure/" occurs; a document without gates yields
    false; and an absent optional section yields an empty list (or an absent
    value) for the data read from it, never a failure. *)
Theorem terraform_flag (config : GovernanceConfig) :
  (hasTerraform (template_data config) = true ↔
   ∃ gates gate p,
     approval_gates config = Some gates ∧ gate ∈ gates ∧
     path_pattern (trigger gate) = Some p ∧
     (occurs_in ".tf" p ∨ occurs_in "infrastructure/" p)) ∧
  (approval_gates config = None ∨ approval_gates config = Some [] →
   hasTerraform (template_data config) = false) ∧
  (operational config = None →
   protectedBranches (template_data config) = [] ∧
   dynamodbBillingMode (template_data config) = None) ∧
  (secrets config = None → secretPatterns (template_data config) = []) ∧
  (roles config = None → contractorMembers (template_data config) = []) ∧
  (compliance config = None → complianceControls (template_data config) = []).
Proof.
  split_and!.
  - simpl. unfold checkTerraformUsage.
    destruct (approval_gates config) as [gates|].
    + rewrite existsb_exists. split.
      * intros (gate & Hin%list_elem_of_In & Hg%gate_touches_infrastructure_spec).
        destruct Hg as (p & Hp & Hocc). by exists gates, gate, p.
      * intros (gates' & gate & p & Heq & Hin & Hp & Hocc). simplify_eq.
        exists gate. split; [by apply list_elem_of_In|].
        apply gate_touches_infrastructure_spec. by exists p.
    + split; [done|]. by intros (gates & gate & p & Heq & _).
  - simpl. unfold checkTerraformUsage. by intros [-> | ->].
  - simpl. unfold getProtectedBranches. by intros ->.
  - simpl. by intros ->.
  - simpl. unfold getContractorMembers. by intros ->.
  - simpl. unfold getComplianceControls. by intros ->.
Qed.

Lemma terraform_flag_witness :
  hasTerraform (template_data readme_config) = false ∧
  protectedBranches (template_data readme_config) = [] ∧
  dynamodbBillingMode (template_data readme_config) = None ∧
  hasTerraform (template_data infrastructure_config) = true.
Proof.
  destruct (terraform_flag readme_config) as (Hiff & _ & Hop & _). split_and!.
  - apply not_true_is_false. intros Htrue. apply Hiff in Htrue.
    destruct Htrue as (gates & gate & p & Hgates & Hin & Hp & Hocc).
    injection Hgates as <-. apply list_elem_of_singleton in Hin as ->.
    discriminate Hp.
  - apply Hop. reflexivity.
  - apply Hop. reflexivity.
  - apply (terraform_flag infrastructure_config).
    exists [readme_gate; infrastructure_gate], infrastructure_gate, "infrastructure/**".
    split_and!; [reflexivity | | reflexivity |].
    + apply list_elem_of_In. simpl. auto.
    + right. exists "", "**". reflexivity.
Defined.

End WorkflowClaims.

(** ** Claims about validation errors *)

Section ValidationClaims.
Import GovernanceParser.

Variable Raw : Type.
Variable yaml_load : string → result Raw.
Variable GovernanceSchema_parse : Raw → SchemaFailure + GovernanceConfig.








End ValidationClaims.

(** A sample failure of the schema check: a missing mandatory field and an
    approval-gate action of an unknown type. *)
Definition sample_missing_project : GovernanceParser.ZodIssue :=
  {| GovernanceParser.code := GovernanceParser.invalid_type;
     GovernanceParser.path := [GovernanceParser.Key "project"];
     GovernanceParser.message := "Required";
     GovernanceParser.options := [] |}.

Definition sample_bad_action_type : GovernanceParser.ZodIssue :=
  {| GovernanceParser.code := GovernanceParser.invalid_enum_value;
     GovernanceParser.path :=
       [GovernanceParser.Key "approval_gates"; GovernanceParser.Index 0;
        GovernanceParser.Key "action"; GovernanceParser.Key "type"];
     GovernanceParser.message := "Invalid enum value";
     GovernanceParser.options := ActionType_options |}.

Definition sample_issues : list GovernanceParser.ZodIssue :=
  [sample_missing_project; sample_bad_action_type].

(** A loader and a schema check that fail with [sample_issues] on every
    text. *)
Definition sample_load (content : string) : result string := Ok content.

Definition sample_schema (data : string) : GovernanceParser.SchemaFailure + GovernanceConfig :=
  inl (GovernanceParser.ZodError sample_issues).

Example sample_report :
  GovernanceParser.parseString string sample_load sample_schema "version: 1" "governance.yaml"
  = Throw ("Validation errors in governance.yaml:" +:+ GovernanceParser.newline +:+
           "  - project: Required" +:+ GovernanceParser.newline +:+
           "  - approval_gates.0.action.type: Invalid enum value" +:+
           GovernanceParser.newline +:+
           "    Allowed values: command, prompt, agent").
Proof. vm_compute. reflexivity. Qed.


(** ** Claims about the whole pipeline *)

Section PipelineClaims.
Import GovernanceCompiler.

Variable JSON_stringify : SettingsGenerator.ClaudeSettings → string.
Variable HooksGenerator_generate : GovernanceConfig → result (list GeneratedHook).
Variable dirname : string.
Variable path_join : list string → string.
Variable fs_readFileSync : string → result string.
Variable Handlebars_compile : string → WorkflowGenerator.TemplateData → result string.


(** The descriptor without any key. *)
Definition empty_settings : SettingsGenerator.ClaudeSettings :=
  {| SettingsGenerator.settings_permissions := None;
     SettingsGenerator.settings_sandbox := None;
     SettingsGenerator.settings_hooks := None;
     SettingsGenerator.defaultMode := None |}.

(** The workflow data without any extracted entry. *)
Definition empty_data (p : string) : WorkflowGenerator.TemplateData :=
  {| WorkflowGenerator.projectName := p;
     WorkflowGenerator.protectedBranches := [];
     WorkflowGenerator.secretPatterns := [];
     WorkflowGenerator.hasTerraform := false;
     WorkflowGenerator.dynamodbBillingMode := None;
     WorkflowGenerator.contractorMembers := [];
     WorkflowGenerator.complianceControls := [] |}.

(** C8.  For a document that carries only [version] and [project], the
    settings projector returns the descriptor without a permissions,
    sandbox or hooks key; the workflow data has no protected branch, secret
    pattern, contractor member or compliance control (and a false
    infrastructure flag); and, where the hook projector returns and the
    workflow template is read and rendered, the pipeline returns its
    artifact list: the descriptor, the hook scripts, the workflow and the
    documentation. *)
Theorem minimal_document_compiles (v p baseDir template rendered : string)
    (hooks : list GeneratedHook) :
  HooksGenerator_generate (minimal_config v p) = Ok hooks →
  fs_readFileSync (path_join [templatesDir dirname path_join; "governance.yml.hbs"])
    = Ok template →
  Handlebars_compile template (empty_data p) = Ok rendered →
  SettingsGenerator.generate (minimal_config v p) = Ok empty_settings ∧
  WorkflowGenerator.template_data (minimal_config v p) = empty_data p ∧
  generateFiles JSON_stringify HooksGenerator_generate dirname path_join
    fs_readFileSync Handlebars_compile (minimal_config v p) baseDir
  = Ok ([ {| file_path := ".claude/settings.json";
            file_content := JSON_stringify empty_settings;
            executable := None |} ]
        ++ map hook_file hooks
        ++ [ {| file_path := ".github/workflows/governance.yml";
                file_content := rendered;
                executable := None |};
             {| file_path := "GOVERNANCE.md";
                file_content := generateDocumentation (minimal_config v p);
                executable := None |} ]).
Proof.
  intros Hhooks Hread Hrender. split_and!; [done..|].
  unfold generateFiles, WorkflowGenerator.generate.
  change (SettingsGenerator.generate (minimal_config v p)) with (Ok empty_settings).
  change (WorkflowGenerator.template_data (minimal_config v p)) with (empty_data p).
  simpl mbind at 1. rewrite Hhooks. simpl mbind at 1.
  rewrite Hread. simpl. rewrite Hrender. reflexivity.
Qed.

End PipelineClaims.

(** A sample installation: a serializer, a hook projector, a module
    directory, [path.join] by slashes, two disks that agree on the template
    only, and a template engine. *)
Definition sample_stringify (settings : SettingsGenerator.ClaudeSettings) : string :=
  match SettingsGenerator.settings_permissions settings with
  | None => "{}"
  | Some _ => "{ permissions }"
  end.

Definition sample_hooks (config : GovernanceConfig)
    : result (list GovernanceCompiler.GeneratedHook) :=
  Ok [ {| GovernanceCompiler.hook_filename := "validate-permissions.sh";
          GovernanceCompiler.hook_content := "#!/bin/bash";
          GovernanceCompiler.hook_executable := Some true |} ].

Definition sample_dirname : string := "/pkg/dist/generators".

Definition sample_join (parts : list string) : string := join "/" parts.

Definition sample_template_path : string :=
  "/pkg/dist/generators/../templates/workflows/governance.yml.hbs".

Definition sample_disk_before (file : string) : result string :=
  if decide (file = sample_template_path) then Ok "name: {{projectName}}"
  else Throw "ENOENT".

Definition sample_disk_after (file : string) : result string :=
  if decide (file = sample_template_path) then Ok "name: {{projectName}}"
  else if decide (file = "out1/GOVERNANCE.md") then Ok "# Governance Documentation"
  else Throw "ENOENT".

Definition sample_engine (template : string) (data : WorkflowGenerator.TemplateData)
    : result string :=
  Ok ("name: " +:+ WorkflowGenerator.projectName data).

Example sample_disks_agree :
  GovernanceCompiler.generateFiles sample_stringify sample_hooks sample_dirname
    sample_join sample_disk_before sample_engine readme_config "out1"
  = GovernanceCompiler.generateFiles sample_stringify sample_hooks sample_dirname
      sample_join sample_disk_after sample_engine readme_config "out2".
Proof. vm_compute. reflexivity. Qed.

Lemma minimal_document_compiles_witness :
  SettingsGenerator.generate (minimal_config "1.0" "my-app") = Ok empty_settings ∧
  WorkflowGenerator.template_data (minimal_config "1.0" "my-app") = empty_data "my-app" ∧
  GovernanceCompiler.generateFiles sample_stringify sample_hooks sample_dirname
    sample_join sample_disk_before sample_engine (minimal_config "1.0" "my-app") "out"
  = Ok ([ {| GovernanceCompiler.file_path := ".claude/settings.json";
            GovernanceCompiler.file_content := sample_stringify empty_settings;
            GovernanceCompiler.executable := None |} ]
        ++ map GovernanceCompiler.hook_file
             [ {| GovernanceCompiler.hook_filename := "validate-permissions.sh";
                  GovernanceCompiler.hook_content := "#!/bin/bash";
                  GovernanceCompiler.hook_executable := Some true |} ]
        ++ [ {| GovernanceCompiler.file_path := ".github/workflows/governance.yml";
                GovernanceCompiler.file_content := "name: my-app";
                GovernanceCompiler.executable := None |};
             {| GovernanceCompiler.file_path := "GOVERNANCE.md";
                GovernanceCompiler.file_content :=
                  GovernanceCompiler.generateDocumentation (minimal_config "1.0" "my-app");
                GovernanceCompiler.executable := None |} ]).
Proof.
  apply (minimal_document_compiles sample_stringify sample_hooks sample_dirname
           sample_join sample_disk_before sample_engine
           "1.0" "my-app" "out" "name: {{projectName}}" "name: my-app");
    vm_compute; reflexivity.
Defined.

(** * Further properties of the projectors *)

(** ** Rendered permission entries *)

Section RenderedEntries.
Import SettingsGenerator.

Lemma string_length_app (s t : string) :
  String.length (s +:+ t) = String.length s + String.length t.
Proof. induction s as [|a s IH]; [done|]. rewrite app_cons. simpl. by rewrite IH. Qed.

(** Appending the same suffix is injective. *)
Lemma app_inj_r (s1 s2 t : string) : s1 +:+ t = s2 +:+ t → s1 = s2.
Proof.
  revert s2. induction s1 as [|a s1 IH]; intros [|b s2] H.
  - done.
  - apply (f_equal String.length) in H.
    rewrite app_empty_l, app_cons in H. simpl in H.
    rewrite string_length_app in H. lia.
  - apply (f_equal String.length) in H.
    rewrite app_empty_l, app_cons in H. simpl in H.
    rewrite string_length_app in H. lia.
  - rewrite !app_cons in H. injection H as -> H. f_equal. by apply IH.
Qed.

(** No entry of a descriptor list is dropped, merged or added: each list
    is as long as the filesystem and command rules declared for it. *)
Theorem descriptor_list_length (config : GovernanceConfig) (settings : ClaudeSettings)
    (k : ListKind) :
  generate config = Ok settings →
  length (descriptor_list settings (emitted k))
  = length (scope_rules config filesystem (declared k))
    + length (scope_rules config commands (declared k)).
Proof.
  intros Hgen.
  destruct (generate_files_then_commands _ _ k Hgen) as (fs & cs & Hfs & Hcs & Hout).
  unfold descriptor_list. rewrite Hout.
  rewrite (Forall2_length _ _ _ Hfs), (Forall2_length _ _ _ Hcs), <-length_app.
  by destruct (fs ++ cs).
Qed.

Lemma descriptor_list_length_witness :
  length (descriptor_list readme_settings (emitted Deny))
  = length (scope_rules readme_config filesystem (declared Deny))
    + length (scope_rules readme_config commands (declared Deny)).
Proof.
  apply (descriptor_list_length readme_config readme_settings Deny).
  vm_compute. reflexivity.
Defined.

(** An entry of a descriptor list tells which rule it came from: two
    filesystem rules with the same entry have the same path, two command
    rules with the same entry have the same pattern, and no filesystem
    rule shares its entry with a command rule. *)
Theorem rendered_entry_identifies_rule (s : string) :
  (∀ r1 r2, file_format r1 = Ok s → file_format r2 = Ok s →
     rule_path r1 = rule_path r2) ∧
  (∀ r1 r2, formatBashPermission r1 = Ok s → formatBashPermission r2 = Ok s →
     rule_pattern r1 = rule_pattern r2) ∧
  (∀ r1 r2, file_format r1 = Ok s → formatBashPermission r2 = Ok s → False).
Proof.
  split_and!.
  - intros r1 r2 (p1 & Hp1 & _ & ->)%formatFilePermission_inv
      (p2 & Hp2 & _ & Heq)%formatFilePermission_inv.
    rewrite Hp1, Hp2. f_equal.
    apply (inj (String.app "Read|Write|Edit(")) in Heq.
    by apply app_inj_r in Heq.
  - intros r1 r2 (p1 & Hp1 & _ & ->)%formatBashPermission_inv
      (p2 & Hp2 & _ & Heq)%formatBashPermission_inv.
    rewrite Hp1, Hp2. f_equal.
    apply (inj (String.app "Bash(")) in Heq.
    by apply app_inj_r in Heq.
  - intros r1 r2 (p1 & _ & _ & ->)%formatFilePermission_inv
      (p2 & _ & _ & Heq)%formatBashPermission_inv.
    discriminate Heq.
Qed.

Lemma rendered_entry_identifies_rule_witness :
  rule_pattern {| rule_path := None; rule_pattern := Some "rm -rf *";
                  rule_reason := Some "destructive" |}
  = rule_pattern {| rule_path := Some "/"; rule_pattern := Some "rm -rf *";
                    rule_reason := None |}.
Proof.
  apply (rendered_entry_identifies_rule "Bash(rm -rf *)"); reflexivity.
Defined.

Lemma push_rules_throw fmt target rules (msg : string) :
  push_rules fmt target rules = Throw msg →
  ∃ r, r ∈ default [] rules ∧ fmt r = Throw msg.
Proof.
  destruct rules as [[|r rs]|]; [done| |done].
  intros Hthrow. apply (map_throwing_throw fmt (r :: rs)).
  change (push_rules fmt target (Some (r :: rs)))
    with (map_throwing fmt (r :: rs)
            ≫= λ formatted, Ok (Some (default [] target ++ formatted))) in Hthrow.
  destruct (map_throwing fmt (r :: rs)) as [ss|e]; [done|].
  by injection Hthrow as ->.
Qed.

(** When every exception of the callback carries the same message, one
    failing element makes the mapped array throw that message. *)
Lemma map_throwing_uniform {A B} (f : A → result B) (xs : list A) (msg : string) :
  (∀ x e, f x = Throw e → e = msg) →
  (∃ x, x ∈ xs ∧ is_ok (f x) = false) →
  map_throwing f xs = Throw msg.
Proof.
  intros Huni Hbad.
  destruct (map_throwing f xs) as [ys|e] eqn:Hm.
  - apply map_throwing_Forall2 in Hm. destruct Hbad as (x & Hin & Hx).
    apply list_elem_of_lookup in Hin as [i Hi].
    destruct (Forall2_lookup_l _ _ _ _ _ Hm Hi) as (y & _ & Hy).
    by rewrite Hy in Hx.
  - apply map_throwing_throw in Hm as (x & _ & Hx). by rewrite (Huni _ _ Hx).
Qed.

Lemma push_rules_uniform fmt target rules (msg : string) :
  (∀ r e, fmt r = Throw e → e = msg) →
  (∃ r, r ∈ default [] rules ∧ is_ok (fmt r) = false) →
  push_rules fmt target rules = Throw msg.
Proof.
  intros Huni Hbad. destruct rules as [[|r rs]|].
  - destruct Hbad as (x & Hin & _). by apply elem_of_nil in Hin.
  - change (push_rules fmt target (Some (r :: rs)))
      with (map_throwing fmt (r :: rs)
              ≫= λ formatted, Ok (Some (default [] target ++ formatted))).
    by rewrite (map_throwing_uniform fmt (r :: rs) msg).
  - destruct Hbad as (x & Hin & _). by apply elem_of_nil in Hin.
Qed.

Lemma push_scope_uniform fmt acc scope (msg : string) (k : ListKind) :
  (∀ r e, fmt r = Throw e → e = msg) →
  (∃ r, r ∈ default [] (scope ≫= declared k) ∧ is_ok (fmt r) = false) →
  push_scope fmt acc scope = Throw msg.
Proof.
  intros Huni Hbad. destruct scope as [lists|]; simpl in Hbad.
  - unfold push_scope.
    destruct (push_rules fmt (out_deny acc) (deny lists)) as [d|e] eqn:Hd; simpl.
    + destruct (push_rules fmt (out_ask acc) (ask lists)) as [a|e] eqn:Ha; simpl.
      * destruct (push_rules fmt (out_allow acc) (allow lists)) as [al|e] eqn:Hal; simpl.
        -- destruct k; simpl in Hbad.
           ++ by rewrite (push_rules_uniform fmt _ _ msg) in Hd.
           ++ by rewrite (push_rules_uniform fmt _ _ msg) in Ha.
           ++ by rewrite (push_rules_uniform fmt _ _ msg) in Hal.
        -- apply push_rules_throw in Hal as (r & _ & Hr).
           by rewrite (Huni _ _ Hr).
      * apply push_rules_throw in Ha as (r & _ & Hr). by rewrite (Huni _ _ Hr).
    + apply push_rules_throw in Hd as (r & _ & Hr). by rewrite (Huni _ _ Hr).
  - destruct Hbad as (x & Hin & _). by apply elem_of_nil in Hin.
Qed.

End RenderedEntries.

(** ** The descriptor as a whole *)

Section DescriptorProperties.
Import SettingsGenerator.

Lemma file_format_throw (r : PermissionRule) (e : string) :
  file_format r = Throw e → e = "Filesystem permission rule must have a path".
Proof.
  unfold file_format. destruct (blank_dec (rule_path r)) as [Hb|(p & Hp & Hne)].
  - rewrite formatFilePermission_blank by done. congruence.
  - by rewrite (formatFilePermission_ok _ _ p).
Qed.

Lemma blank_path_throws (config : GovernanceConfig) (k : ListKind) (r : PermissionRule) :
  r ∈ scope_rules config filesystem (declared k) →
  blank (rule_path r) →
  generate config = Throw "Filesystem permission rule must have a path".
Proof.
  intros Hin Hb. unfold scope_rules in Hin. unfold generate.
  destruct (permissions config) as [p|] eqn:Hp; [|by apply elem_of_nil in Hin].
  simpl in Hin. unfold generatePermissions. rewrite Hp. simpl.
  rewrite (push_scope_uniform (λ r, formatFilePermission r "Read|Write|Edit") _ _
             "Filesystem permission rule must have a path" k); [done| |].
  - intros r' e. apply file_format_throw.
  - exists r. split; [done|]. by rewrite formatFilePermission_blank.
Qed.

(** When a document declares a filesystem rule whose path is absent or
    empty, in any of its three lists, the projector fails with the
    filesystem error, also when command rules are malformed too:
    filesystem rules are rendered first. *)
Theorem filesystem_error_reported_first (config : GovernanceConfig) (k : ListKind)
    (r : PermissionRule) :
  r ∈ scope_rules config filesystem (declared k) →
  blank (rule_path r) →
  generate config = Throw "Filesystem permission rule must have a path".
Proof. apply blank_path_throws. Qed.

Lemma filesystem_error_reported_first_witness :
  generate empty_path_config = Throw "Filesystem permission rule must have a path".
Proof.
  apply (filesystem_error_reported_first empty_path_config Deny
           {| rule_path := Some ""; rule_pattern := None; rule_reason := None |}).
  - apply list_elem_of_In. simpl. auto.
  - right. reflexivity.
Defined.

(** The descriptor carries a sandbox section exactly when the document's
    sandbox is enabled; the section then says enabled, takes its network
    domains from the permissions section (not from the sandbox section),
    and its paths and excluded commands from the sandbox section. *)
Theorem sandbox_section (config : GovernanceConfig) (settings : ClaudeSettings) :
  generate config = Ok settings →
  (is_Some (settings_sandbox settings) ↔ sandbox config ≫= sandbox_enabled = Some true) ∧
  (∀ out, settings_sandbox settings = Some out →
     enabled out = Some true ∧
     mode out = SandboxMode_string <$> (sandbox config ≫= sandbox_mode) ∧
     allowedDomains out = (permissions config ≫= network) ≫= allowed_domains ∧
     blockedDomains out = (permissions config ≫= network) ≫= blocked_domains ∧
     allowedPaths out = (sandbox config ≫= sandbox_filesystem) ≫= allowed_paths ∧
     blockedPaths out = (sandbox config ≫= sandbox_filesystem) ≫= blocked_paths ∧
     excludedCommands out = sandbox config ≫= excluded_commands).
Proof.
  unfold generate.
  destruct (match permissions config with
            | Some _ => Some <$> generatePermissions config
            | None => Ok None
            end) as [perms|e]; simpl; [|done].
  intros [= <-]. simpl. unfold generateSandbox.
  destruct (sandbox config) as [sb|]; simpl.
  - destruct (sandbox_enabled sb) as [[|]|]; simpl.
    + split; [by split; eauto|]. intros out [= <-]. simpl.
      destruct (sandbox_mode sb), (permissions config ≫= network),
        (sandbox_filesystem sb); done.
    + split; [split; [by intros [? ?]|done]|done].
    + split; [split; [by intros [? ?]|done]|done].
  - split; [split; [by intros [? ?]|done]|done].
Qed.

(** A document with an enabled sandbox, network permissions, and a network
    entry in the sandbox section itself. *)
Definition sandboxed_config : GovernanceConfig :=
  {| version := "1.0"; project := "my-app"; description := None;
     data_classification := None;
     permissions := Some
       {| filesystem := None; commands := None;
          network := Some {| allowed_domains := Some ["api.github.com"];
                             blocked_domains := Some ["pastebin.com"] |} |};
     secrets := None; approval_gates := None; operational := None;
     testing := None; roles := None; audit := None;
     sandbox := Some
       {| sandbox_enabled := Some true;
          sandbox_mode := Some auto_allow;
          sandbox_filesystem := Some {| allowed_paths := Some ["./src"];
                                        blocked_paths := None |};
          sandbox_network := Some {| inherit_from := Some "permissions.network" |};
          excluded_commands := Some ["docker"] |};
     compliance := None; cost_controls := None |}.

Definition sandboxed_section : ClaudeSandbox :=
  {| enabled := Some true;
     mode := Some "auto-allow";
     allowedDomains := Some ["api.github.com"];
     blockedDomains := Some ["pastebin.com"];
     allowedPaths := Some ["./src"];
     blockedPaths := None;
     excludedCommands := Some ["docker"] |}.

Definition sandboxed_settings : ClaudeSettings :=
  {| settings_permissions :=
       Some {| out_allow := None; out_deny := None; out_ask := None |};
     settings_sandbox := Some sandboxed_section;
     settings_hooks := None;
     defaultMode := None |}.

Example sandboxed_generate : generate sandboxed_config = Ok sandboxed_settings.
Proof. vm_compute. reflexivity. Qed.

Lemma sandbox_section_witness :
  is_Some (settings_sandbox sandboxed_settings) ∧
  enabled sandboxed_section = Some true ∧
  mode sandboxed_section = Some "auto-allow" ∧
  allowedDomains sandboxed_section = Some ["api.github.com"] ∧
  blockedDomains sandboxed_section = Some ["pastebin.com"] ∧
  allowedPaths sandboxed_section = Some ["./src"] ∧
  blockedPaths sandboxed_section = None ∧
  excludedCommands sandboxed_section = Some ["docker"].
Proof.
  destruct (sandbox_section sandboxed_config sandboxed_settings) as [Hiff Hfields].
  - vm_compute. reflexivity.
  - split.
    + apply Hiff. reflexivity.
    + exact (Hfields sandboxed_section eq_refl).
Defined.

(** The hooks section is absent exactly when the document has no approval
    gate; when present its only key is "PreToolUse", and the list under it
    has one binding per gate, in declaration order, each with one hook. *)
Theorem hooks_section (config : GovernanceConfig) (settings : ClaudeSettings) :
  generate config = Ok settings →
  (settings_hooks settings = None ↔ default [] (approval_gates config) = []) ∧
  (∀ m, settings_hooks settings = Some m →
     dom m = {[ "PreToolUse" ]} ∧
     ∃ bindings,
       m !! "PreToolUse" = Some bindings ∧
       length bindings = length (default [] (approval_gates config)) ∧
       map matcher bindings = map gate_matcher (default [] (approval_gates config)) ∧
       Forall (λ b, length (hooks b) = 1) bindings).
Proof.
  intros Hgen. rewrite (generate_hooks _ _ Hgen).
  destruct (approval_gates config) as [[|g gates]|]; simpl; [done| |done].
  split; [done|]. intros m [= <-]. split; [by rewrite dom_singleton_L|].
  exists (map gate_binding (g :: gates)). split_and!.
  - by rewrite lookup_singleton_eq.
  - by rewrite length_map.
  - by rewrite map_map.
  - apply Forall_map, Forall_forall. by intros.
Qed.

Lemma hooks_section_witness :
  settings_hooks readme_settings = None ↔ default [] (approval_gates readme_config) = [].
Proof.
  apply (hooks_section readme_config readme_settings).
  vm_compute. reflexivity.
Defined.

(** The matcher of a gate is its tool name, "Bash", "Edit|Write" or empty,
    and it is empty exactly when the tool name, the command pattern and the
    path pattern are all absent or empty: such a gate is bound without any
    tool to match. *)
Theorem matcher_range (gate : ApprovalGate) :
  (tool (trigger gate) = Some (gate_matcher gate) ∨ gate_matcher gate = "Bash" ∨
   gate_matcher gate = "Edit|Write" ∨ gate_matcher gate = "") ∧
  (gate_matcher gate = "" ↔
   blank (tool (trigger gate)) ∧ blank (command_pattern (trigger gate)) ∧
   blank (path_pattern (trigger gate))).
Proof.
  unfold gate_matcher, blank.
  destruct (tool (trigger gate)) as [[|a t]|]; simpl;
    destruct (command_pattern (trigger gate)) as [[|b c]|]; simpl;
    destruct (path_pattern (trigger gate)) as [[|d p]|]; simpl;
    (split; [auto|]); split; try done; auto;
    intros (H1 & H2 & H3); destruct H1 as [?|?]; destruct H2 as [?|?];
    destruct H3 as [?|?]; congruence.
Qed.

(** The descriptor depends on three sections of the document only:
    permissions, sandbox and approval gates.  Secrets, roles (with their
    additional gates) and every other section never reach it. *)
Theorem descriptor_depends_on_three_sections (config1 config2 : GovernanceConfig) :
  permissions config1 = permissions config2 →
  sandbox config1 = sandbox config2 →
  approval_gates config1 = approval_gates config2 →
  generate config1 = generate config2.
Proof.
  intros Hp Hs Hg.
  unfold generate, generatePermissions, generateSandbox, generateHooksConfig.
  by rewrite Hp, Hs, Hg.
Qed.

Lemma descriptor_depends_on_three_sections_witness :
  generate infrastructure_config
  = generate {| version := "2.0"; project := "other";
                description := None; data_classification := None;
                permissions := permissions infrastructure_config;
                secrets := None;
                approval_gates := approval_gates infrastructure_config;
                operational := None; testing := None;
                roles := Some {[ "contractor" :=
                  {| members := Some ["eve"]; restrictions := None;
                     additional_gates := Some [readme_gate]; behavior := None |} ]};
                audit := None;
                sandbox := sandbox infrastructure_config;
                compliance := None; cost_controls := None |}.
Proof.
  apply descriptor_depends_on_three_sections; reflexivity.
Defined.

End DescriptorProperties.

(** ** The workflow data *)

Section WorkflowProperties.
Import WorkflowGenerator.

(** A document with its roles replaced. *)
Definition with_roles (config : GovernanceConfig) (rs : option (gmap string Role))
    : GovernanceConfig :=
  {| version := version config; project := project config;
     description := description config;
     data_classification := data_classification config;
     permissions := permissions config; secrets := secrets config;
     approval_gates := approval_gates config; operational := operational config;
     testing := testing config; roles := rs; audit := audit config;
     sandbox := sandbox config; compliance := compliance config;
     cost_controls := cost_controls config |}.

(** A document with its approval gates replaced. *)
Definition with_gates (config : GovernanceConfig) (gates : option (list ApprovalGate))
    : GovernanceConfig :=
  {| version := version config; project := project config;
     description := description config;
     data_classification := data_classification config;
     permissions := permissions config; secrets := secrets config;
     approval_gates := gates; operational := operational config;
     testing := testing config; roles := roles config; audit := audit config;
     sandbox := sandbox config; compliance := compliance config;
     cost_controls := cost_controls config |}.

(** The contractor members are those of the role stored under the key
    "contractor" and of no other: adding, replacing or removing a role
    under any other name leaves them unchanged, and removing the contractor
    role empties them. *)
Theorem contractor_members_by_key (config : GovernanceConfig) (rs : gmap string Role)
    (name : string) (role : Role) :
  name ≠ "contractor" →
  getContractorMembers (with_roles config (Some (<[name := role]> rs)))
    = getContractorMembers (with_roles config (Some rs)) ∧
  getContractorMembers (with_roles config (Some (delete name rs)))
    = getContractorMembers (with_roles config (Some rs)) ∧
  getContractorMembers (with_roles config (Some (delete "contractor" rs))) = [] ∧
  getContractorMembers (with_roles config (Some (<["contractor" := role]> rs)))
    = default [] (members role).
Proof.
  intros Hne. unfold getContractorMembers. simpl. split_and!.
  - by rewrite lookup_insert_ne.
  - by rewrite lookup_delete_ne.
  - by rewrite lookup_delete_eq.
  - by rewrite lookup_insert_eq.
Qed.

(** A role map with a contractor role, and another role to add to it. *)
Definition contractor_role : Role :=
  {| members := Some ["eve"; "mallory"]; restrictions := Some ["no-infrastructure"];
     additional_gates := None; behavior := None |}.

Definition admin_role : Role :=
  {| members := Some ["root"]; restrictions := None;
     additional_gates := None; behavior := None |}.

Definition sample_roles : gmap string Role :=
  {[ "contractor" := contractor_role; "reviewer" := admin_role ]}.

Example sample_contractor_members :
  getContractorMembers (with_roles readme_config (Some sample_roles)) = ["eve"; "mallory"].
Proof. vm_compute. reflexivity. Qed.

Lemma contractor_members_by_key_witness :
  getContractorMembers (with_roles readme_config (Some (<["admin" := admin_role]> sample_roles)))
    = ["eve"; "mallory"] ∧
  getContractorMembers (with_roles readme_config (Some (delete "reviewer" sample_roles)))
    = ["eve"; "mallory"] ∧
  getContractorMembers (with_roles readme_config (Some (delete "contractor" sample_roles)))
    = [] ∧
  getContractorMembers
    (with_roles readme_config (Some (<["contractor" := admin_role]> sample_roles)))
    = ["root"].
Proof.
  destruct (contractor_members_by_key readme_config sample_roles "admin" admin_role)
    as (Hinsert & _ & Hgone & Hset); [discriminate|].
  destruct (contractor_members_by_key readme_config sample_roles "reviewer" admin_role)
    as (_ & Hdelete & _ & _); [discriminate|].
  split_and!.
  - rewrite Hinsert. vm_compute. reflexivity.
  - rewrite Hdelete. vm_compute. reflexivity.
  - exact Hgone.
  - exact Hset.
Defined.

(** The compliance controls of the workflow data are exactly the controls
    of the declared frameworks, each tagged with the name of the framework
    that declares it, and there are as many as declared controls. *)
Theorem compliance_controls_flattened (config : GovernanceConfig)
    (fws : list ComplianceFramework) :
  compliance config ≫= frameworks = Some fws →
  (∀ report, report ∈ getComplianceControls config ↔
     ∃ fw control, fw ∈ fws ∧ control ∈ controls fw ∧
       report = {| id := control_id control; framework := framework_name fw;
                   report_description := control_description control;
                   evidence := satisfied_by control |}) ∧
  length (getComplianceControls config) = sum_list (map (λ fw, length (controls fw)) fws).
Proof.
  intros Hfws. unfold getComplianceControls. rewrite Hfws. split.
  - intros report. rewrite list_elem_of_In, in_flat_map. split.
    + intros (fw & Hfw%list_elem_of_In & Hin%list_elem_of_In).
      apply list_elem_of_fmap in Hin as (control & -> & Hc). by exists fw, control.
    + intros (fw & control & Hfw & Hc & ->). exists fw.
      split; [by apply list_elem_of_In|].
      apply list_elem_of_In. by apply (list_elem_of_fmap_2 (control_report fw)).
  - induction fws as [|fw fws' IH] in |- *; simpl; [done|].
    by rewrite length_app, length_map, IH.
Qed.

Definition sample_compliance : list ComplianceFramework :=
  [ {| framework_name := "SOC2";
       controls := [ {| control_id := "CC6.1"; control_description := "Logical access";
                        satisfied_by := ["settings.json"; "hooks"] |};
                     {| control_id := "CC7.2"; control_description := "Monitoring";
                        satisfied_by := ["audit"] |} ] |};
    {| framework_name := "GDPR";
       controls := [ {| control_id := "Art32"; control_description := "Security";
                        satisfied_by := ["workflow"] |} ] |} ].

Definition compliance_config : GovernanceConfig :=
  {| version := "1.0"; project := "my-app"; description := None;
     data_classification := None; permissions := None; secrets := None;
     approval_gates := None; operational := None; testing := None; roles := None;
     audit := None; sandbox := None;
     compliance := Some {| frameworks := Some sample_compliance |};
     cost_controls := None |}.

Lemma compliance_controls_flattened_witness :
  length (getComplianceControls compliance_config)
  = sum_list (map (λ fw, length (controls fw)) sample_compliance).
Proof.
  apply (compliance_controls_flattened compliance_config sample_compliance).
  reflexivity.
Defined.

(** The infrastructure flag is decided by the path patterns of the
    document's own approval gates, in any order of evaluation: two gate
    lists with the same path patterns give the same flag, whatever their
    names, tools, command patterns and actions. *)
Theorem terraform_flag_reads_path_patterns (config : GovernanceConfig)
    (gates1 gates2 : list ApprovalGate) :
  map (λ g, path_pattern (trigger g)) gates1 = map (λ g, path_pattern (trigger g)) gates2 →
  checkTerraformUsage (with_gates config (Some gates1))
  = checkTerraformUsage (with_gates config (Some gates2)).
Proof.
  unfold checkTerraformUsage. simpl.
  revert gates2. induction gates1 as [|g1 gates1 IH]; intros [|g2 gates2] Heq;
    try done.
  simpl in Heq. injection Heq as Hpattern Hrest. simpl.
  unfold gate_touches_infrastructure at 1 3.
  rewrite Hpattern. f_equal. by apply IH.
Qed.

Lemma terraform_flag_reads_path_patterns_witness :
  checkTerraformUsage (with_gates readme_config (Some [infrastructure_gate]))
  = checkTerraformUsage (with_gates readme_config (Some
      [ {| gate_name := "other";
           trigger := {| tool := Some "Write"; path_pattern := Some "infrastructure/**";
                         command_pattern := Some "terraform apply" |};
           action := action readme_gate |} ])).
Proof.
  apply terraform_flag_reads_path_patterns. reflexivity.
Defined.

End WorkflowProperties.

(** ** The documentation *)

Section DocumentationProperties.
Import GovernanceCompiler.

Lemma occurs_in_trans (a b c : string) : occurs_in a b → occurs_in b c → occurs_in a c.
Proof.
  intros (b1 & b2 & ->) (c1 & c2 & ->). exists (c1 +:+ b1), (b2 +:+ c2).
  by rewrite !app_assoc_string.
Qed.












(** What the documentation says of a gate's trigger follows its own
    precedence, path pattern before command pattern, and never shows the
    tool name; the matcher of the same gate prefers tool, then command.  A
    gate without tool name that carries both patterns is documented as a
    file trigger and bound with the matcher "Bash". *)
Theorem documented_trigger_precedence (gate : ApprovalGate) :
  let entry (what : string) :=
    "### " +:+ gate_name gate +:+ GovernanceParser.newline +:+ GovernanceParser.newline +:+
    "**Trigger:** " +:+ what +:+ GovernanceParser.newline +:+ GovernanceParser.newline +:+
    "**Action:** " +:+ ActionType_string (action_type (action gate)) +:+
    GovernanceParser.newline +:+ GovernanceParser.newline in
  (∀ p, path_pattern (trigger gate) = Some p → p ≠ "" →
     doc_gate gate = entry ("Files matching `" +:+ p +:+ "`")) ∧
  (∀ c, blank (path_pattern (trigger gate)) →
     command_pattern (trigger gate) = Some c → c ≠ "" →
     doc_gate gate = entry ("Commands matching `" +:+ c +:+ "`")) ∧
  (blank (path_pattern (trigger gate)) → blank (command_pattern (trigger gate)) →
     doc_gate gate = entry "") ∧
  (∀ p c, blank (tool (trigger gate)) →
     path_pattern (trigger gate) = Some p → p ≠ "" →
     command_pattern (trigger gate) = Some c → c ≠ "" →
     doc_gate gate = entry ("Files matching `" +:+ p +:+ "`") ∧
     SettingsGenerator.gate_matcher gate = "Bash").
Proof.
  assert (∀ p, path_pattern (trigger gate) = Some p → p ≠ "" →
            doc_gate gate =
              "### " +:+ gate_name gate +:+ GovernanceParser.newline +:+
              GovernanceParser.newline +:+ "**Trigger:** " +:+
              ("Files matching `" +:+ p +:+ "`") +:+ GovernanceParser.newline +:+
              GovernanceParser.newline +:+ "**Action:** " +:+
              ActionType_string (action_type (action gate)) +:+
              GovernanceParser.newline +:+ GovernanceParser.newline) as Hpath.
  { intros p Hp Hne. unfold doc_gate. rewrite Hp. by destruct p. }
  simpl. split_and!.
  - done.
  - intros c Hb%opt_string_truthy_false Hc Hne. unfold doc_gate.
    rewrite Hb, Hc. by destruct c.
  - intros Hb%opt_string_truthy_false Hc%opt_string_truthy_false. unfold doc_gate.
    by rewrite Hb, Hc.
  - intros p c Htool%opt_string_truthy_false Hp Hnep Hc Hnec. split; [by apply Hpath|].
    unfold SettingsGenerator.gate_matcher. rewrite Htool, Hc. by destruct c.
Qed.

Lemma documented_trigger_precedence_witness :
  doc_gate readme_gate
  = "### production-deployment" +:+ GovernanceParser.newline +:+ GovernanceParser.newline +:+
    "**Trigger:** " +:+ ("Commands matching `" +:+ "git push .* main" +:+ "`") +:+
    GovernanceParser.newline +:+ GovernanceParser.newline +:+
    "**Action:** " +:+ "prompt" +:+
    GovernanceParser.newline +:+ GovernanceParser.newline.
Proof.
  apply (documented_trigger_precedence readme_gate); [by left|reflexivity|discriminate].
Defined.

End DocumentationProperties.

(** ** The parser front end *)

Section ParserProperties.
Import GovernanceParser.

Variable Raw : Type.
Variable yaml_load : string → result Raw.
Variable GovernanceSchema_parse : Raw → SchemaFailure + GovernanceConfig.
Variable fs_existsSync : string → bool.
Variable fs_readFileSync : string → result string.

Lemma formatValidationError_names_source (error : SchemaFailure) (source : string) :
  occurs_in source (formatValidationError error source).
Proof.
  apply (occurs_in_trans _ ("Validation errors in " +:+ source +:+ ":")).
  - apply occurs_in_app_r, occurs_in_app_l. exists "", "".
    by rewrite app_empty_l, app_empty_r.
  - apply join_occurs. unfold validation_lines. by left.
Qed.

(** Every error of [parseString] names the source it was given: a YAML
    error as well as a schema error. *)
Lemma parseString_error_names_source (content source msg : string) :
  parseString Raw yaml_load GovernanceSchema_parse content source = Throw msg →
  occurs_in source msg.
Proof.
  unfold parseString. destruct (yaml_load content) as [data|e].
  - destruct (GovernanceSchema_parse data) as [error|config]; [|done].
    intros [= <-]. apply formatValidationError_names_source.
  - intros [= <-]. apply occurs_in_app_r, occurs_in_app_l. exists "", "".
    by rewrite app_empty_l, app_empty_r.
Qed.

(** Every error of [parseFile] either names the file it was asked to
    parse (file not found, YAML error, schema error) or is the exception
    of the read itself, passed on unchanged. *)
Theorem parse_errors_name_the_file (filePath msg : string) :
  parseFile Raw yaml_load GovernanceSchema_parse fs_existsSync fs_readFileSync filePath
    = Throw msg →
  occurs_in filePath msg ∨
  (fs_existsSync filePath = true ∧ fs_readFileSync filePath = Throw msg).
Proof.
  unfold parseFile. destruct (fs_existsSync filePath); simpl.
  - destruct (fs_readFileSync filePath) as [content|e]; simpl.
    + intros H. left. by apply parseString_error_names_source in H.
    + intros [= <-]. by right.
  - intros [= <-]. left. exists "Governance file not found: ", "".
    by rewrite app_empty_r.
Qed.



End ParserProperties.

Definition sample_exists (file : string) : bool :=
  bool_decide (file = "governance.yaml").

Definition sample_read (file : string) : result string :=
  if decide (file = "governance.yaml") then Ok "version: 1" else Throw "EACCES".

Lemma parse_errors_name_the_file_witness :
  occurs_in "missing.yaml" "Governance file not found: missing.yaml" ∨
  (sample_exists "missing.yaml" = true ∧
   sample_read "missing.yaml" = Throw "Governance file not found: missing.yaml").
Proof.
  apply (parse_errors_name_the_file string sample_load sample_schema
           sample_exists sample_read "missing.yaml").
  reflexivity.
Defined.

(** ** Writing the artifacts ([writeFiles] and [compile] of [src/compiler.ts])

    The disk is a state threaded through the calls.  An operation that
    throws may still have changed the disk, so every writing operation
    returns its outcome together with the disk it leaves behind. *)

Module CompilerIO.

Import GovernanceParser GovernanceCompiler.

Section Disk.
(** The state of the disk and what the [fs], [path] and [process] modules
    of the runtime do on it. *)
Variable Disk : Type.
Variable path_join : list string → string.
Variable path_dirname : string → string.
Variable platform : string.
Variable fs_existsSync : Disk → string → bool.
Variable fs_readFileSync : Disk → string → result string.
Variable fs_mkdirSync : string → Disk → result unit * Disk.
Variable fs_writeFileSync : string → string → Disk → result unit * Disk.
Variable fs_chmodSync : string → N → Disk → result unit * Disk.

(** The mode [0o755], in decimal. *)
Definition mode_755 : N := 493.

(** [if (file.executable && process.platform !== 'win32')] *)
Definition wants_chmod (file : CompilationFile) : bool :=
  match executable file with
  | Some true => negb (String.eqb platform "win32")
  | Some false => false
  | None => false
  end.

(** The body of the loop of [writeFiles]. *)
Definition writeFile (baseDir : string) (file : CompilationFile) (disk : Disk)
    : result unit * Disk :=
  let fullPath := path_join [baseDir; file_path file] in
  let dir := path_dirname fullPath in
  let made :=
    if negb (fs_existsSync disk dir) then fs_mkdirSync dir disk else (Ok (), disk) in
  match made with
  | (Throw e, disk1) => (Throw e, disk1)
  | (Ok _, disk1) =>
      match fs_writeFileSync fullPath (file_content file) disk1 with
      | (Throw e, disk2) => (Throw e, disk2)
      | (Ok _, disk2) =>
          if wants_chmod file then fs_chmodSync fullPath mode_755 disk2
          else (Ok (), disk2)
      end
  end.

(** [writeFiles(files, baseDir)] *)
Fixpoint writeFiles (files : list CompilationFile) (baseDir : string) (disk : Disk)
    : result unit * Disk :=
  match files with
  | [] => (Ok (), disk)
  | file :: rest =>
      match writeFile baseDir file disk with
      | (Throw e, disk1) => (Throw e, disk1)
      | (Ok _, disk1) => writeFiles rest baseDir disk1
      end
  end.

Variable JSON_stringify : SettingsGenerator.ClaudeSettings → string.
Variable HooksGenerator_generate : GovernanceConfig → result (list GeneratedHook).
Variable dirname : string.
Variable Handlebars_compile : string → WorkflowGenerator.TemplateData → result string.
Variable Raw : Type.
Variable yaml_load : string → result Raw.
Variable GovernanceSchema_parse : Raw → SchemaFailure + GovernanceConfig.

(** The first two statements of the [try] block of [compile] and of
    [preview]: parse the file, generate the artifacts. *)
Definition parse_and_generate (disk : Disk) (governancePath baseDir : string)
    : result (list CompilationFile) :=
  config ← parseFile Raw yaml_load GovernanceSchema_parse (fs_existsSync disk)
             (fs_readFileSync disk) governancePath;
  generateFiles JSON_stringify HooksGenerator_generate dirname path_join
    (fs_readFileSync disk) Handlebars_compile config baseDir.

(** The [catch] block of [compile] and of [preview]. *)
Definition failure (msg : string) : CompilationResult :=
  {| success := false; files := []; errors := Some [msg] |}.

(** [compile(governancePath, outputDir)] *)
Definition compile (governancePath outputDir : string) (disk : Disk)
    : CompilationResult * Disk :=
  match parse_and_generate disk governancePath outputDir with
  | Throw msg => (failure msg, disk)
  | Ok generated =>
      match writeFiles generated outputDir disk with
      | (Throw msg, disk') => (failure msg, disk')
      | (Ok _, disk') =>
          ({| success := true; files := generated; errors := None |}, disk')
      end
  end.

(** [preview(governancePath)], reading the disk [disk]. *)
Definition preview_on (governancePath : string) (disk : Disk) : CompilationResult :=
  preview JSON_stringify HooksGenerator_generate dirname path_join
    (fs_readFileSync disk) Handlebars_compile Raw yaml_load GovernanceSchema_parse
    (fs_existsSync disk) governancePath.

End Disk.

End CompilerIO.

(** ** Properties of writing and compiling *)

Section CompileProperties.
Import GovernanceParser GovernanceCompiler CompilerIO.

Variable Disk : Type.
Variable path_join : list string → string.
Variable path_dirname : string → string.
Variable platform : string.
Variable fs_existsSync : Disk → string → bool.
Variable fs_readFileSync : Disk → string → result string.
Variable fs_mkdirSync : string → Disk → result unit * Disk.
Variable fs_writeFileSync : string → string → Disk → result unit * Disk.
Variable JSON_stringify : SettingsGenerator.ClaudeSettings → string.
Variable HooksGenerator_generate : GovernanceConfig → result (list GeneratedHook).
Variable dirname : string.
Variable Handlebars_compile : string → WorkflowGenerator.TemplateData → result string.
Variable Raw : Type.
Variable yaml_load : string → result Raw.
Variable GovernanceSchema_parse : Raw → SchemaFailure + GovernanceConfig.

Section WithChmod.
Variable fs_chmodSync : string → N → Disk → result unit * Disk.

Local Abbreviation write_file :=
  (writeFile Disk path_join path_dirname platform fs_existsSync fs_mkdirSync
     fs_writeFileSync fs_chmodSync).
Local Abbreviation write_files :=
  (writeFiles Disk path_join path_dirname platform fs_existsSync fs_mkdirSync
     fs_writeFileSync fs_chmodSync).
Local Abbreviation generate_files disk :=
  (generateFiles JSON_stringify HooksGenerator_generate dirname path_join
     (fs_readFileSync disk) Handlebars_compile).
Local Abbreviation parse_file disk :=
  (parseFile Raw yaml_load GovernanceSchema_parse (fs_existsSync disk)
     (fs_readFileSync disk)).
Local Abbreviation attempt :=
  (parse_and_generate Disk path_join fs_existsSync fs_readFileSync JSON_stringify
     HooksGenerator_generate dirname Handlebars_compile Raw yaml_load
     GovernanceSchema_parse).
Local Abbreviation compile_on :=
  (compile Disk path_join path_dirname platform fs_existsSync fs_readFileSync
     fs_mkdirSync fs_writeFileSync fs_chmodSync JSON_stringify HooksGenerator_generate
     dirname Handlebars_compile Raw yaml_load GovernanceSchema_parse).
Local Abbreviation preview_of :=
  (preview_on Disk path_join fs_existsSync fs_readFileSync JSON_stringify
     HooksGenerator_generate dirname Handlebars_compile Raw yaml_load
     GovernanceSchema_parse).
Local Abbreviation validate_on disk :=
  (validate Raw yaml_load GovernanceSchema_parse (fs_existsSync disk)
     (fs_readFileSync disk)).

Lemma writeFiles_app (files1 files2 : list CompilationFile) (baseDir : string)
    (disk : Disk) :
  write_files (files1 ++ files2) baseDir disk
  = match write_files files1 baseDir disk with
    | (Throw e, disk1) => (Throw e, disk1)
    | (Ok _, disk1) => write_files files2 baseDir disk1
    end.
Proof.
  revert disk. induction files1 as [|file files1 IH]; intros disk; simpl; [done|].
  destruct (write_file baseDir file disk) as [[[]|e] disk1]; [apply IH|done].
Qed.

(** Writing is not transactional: when the files before some file are
    written and that file's write throws, [writeFiles] throws the same
    exception and leaves the disk as the failed write left it; the earlier
    files stay written and the later ones are not attempted, whatever
    they are. *)
Theorem write_failure_keeps_earlier_writes (before after : list CompilationFile)
    (file : CompilationFile) (baseDir e : string) (disk disk1 disk2 : Disk) :
  write_files before baseDir disk = (Ok (), disk1) →
  write_file baseDir file disk1 = (Throw e, disk2) →
  write_files (before ++ file :: after) baseDir disk = (Throw e, disk2).
Proof.
  intros Hbefore Hfile. rewrite writeFiles_app, Hbefore. simpl. by rewrite Hfile.
Qed.

(** Writing a list of artifacts in one call is writing a first part and
    then, on the disk that leaves, the rest. *)
Theorem write_files_in_sequence (files1 files2 : list CompilationFile)
    (baseDir : string) (disk disk1 : Disk) :
  write_files files1 baseDir disk = (Ok (), disk1) →
  write_files (files1 ++ files2) baseDir disk = write_files files2 baseDir disk1.
Proof. intros H. by rewrite writeFiles_app, H. Qed.

Lemma preview_attempt (governancePath : string) (disk : Disk) :
  preview_of governancePath disk
  = match attempt disk governancePath "." with
    | Ok generated => {| success := true; files := generated; errors := None |}
    | Throw msg => failure msg
    end.
Proof. reflexivity. Qed.

Lemma attempt_ignores_baseDir (governancePath dir1 dir2 : string) (disk : Disk) :
  attempt disk governancePath dir1 = attempt disk governancePath dir2.
Proof. reflexivity. Qed.

(** A document that fails to parse or validate is reported alike by all
    three entry points, with the one message of the parser, and compiling
    it leaves the disk as it was. *)
Theorem invalid_document_is_rejected_everywhere (governancePath outputDir msg : string)
    (disk : Disk) :
  parse_file disk governancePath = Throw msg →
  validate_on disk governancePath = (false, Some [msg]) ∧
  preview_of governancePath disk = failure msg ∧
  compile_on governancePath outputDir disk = (failure msg, disk).
Proof.
  intros Hparse. split_and!.
  - unfold validate. by rewrite Hparse.
  - rewrite preview_attempt. unfold parse_and_generate. by rewrite Hparse.
  - unfold compile, parse_and_generate. by rewrite Hparse.
Qed.

(** A valid document with a filesystem rule whose path is absent or empty
    is accepted by [validate], but compiling it fails with the rule-format
    error before anything is written: the disk is left as it was. *)
Theorem malformed_rule_writes_nothing (governancePath outputDir : string)
    (disk : Disk) (config : GovernanceConfig) (k : ListKind) (r : PermissionRule) :
  parse_file disk governancePath = Ok config →
  r ∈ scope_rules config filesystem (declared k) →
  blank (rule_path r) →
  validate_on disk governancePath = (true, None) ∧
  compile_on governancePath outputDir disk
  = (failure "Filesystem permission rule must have a path", disk).
Proof.
  intros Hparse Hin Hb. split.
  - unfold validate. by rewrite Hparse.
  - unfold compile, parse_and_generate. rewrite Hparse. simpl.
    unfold generateFiles. by rewrite (blank_path_throws config k r).
Qed.

(** A successful compilation returns exactly what the dry run on the same
    initial disk returns; and compilation succeeds exactly when the dry
    run succeeds and its artifacts can all be written. *)
Theorem compile_agrees_with_preview (governancePath outputDir : string) (disk : Disk) :
  (success (compile_on governancePath outputDir disk).1 = true →
   (compile_on governancePath outputDir disk).1 = preview_of governancePath disk) ∧
  (success (compile_on governancePath outputDir disk).1 = true ↔
   success (preview_of governancePath disk) = true ∧
   is_ok (write_files (files (preview_of governancePath disk)) outputDir disk).1 = true).
Proof.
  rewrite preview_attempt. unfold compile.
  rewrite (attempt_ignores_baseDir governancePath outputDir ".").
  destruct (attempt disk governancePath ".") as [generated|msg]; simpl.
  - destruct (write_files generated outputDir disk) as [[[]|e] disk']; simpl.
    + by split.
    + split; [done|]. split; [done|by intros [_ ?]].
  - split; [done|]. split; [done|by intros [? _]].
Qed.

(** The result of a compilation is either a success without errors or a
    failure with an empty artifact list and exactly one message, also
    when the failure happened after some artifacts had been written. *)
Theorem compile_result_shape (governancePath outputDir : string) (disk : Disk) :
  let r := (compile_on governancePath outputDir disk).1 in
  (success r = true ∧ errors r = None) ∨
  (∃ msg, r = failure msg ∧ success r = false ∧ files r = [] ∧ errors r = Some [msg]).
Proof.
  unfold compile.
  destruct (attempt disk governancePath outputDir) as [generated|msg]; simpl.
  - destruct (write_files generated outputDir disk) as [[[]|e] disk']; simpl.
    + by left.
    + right. by exists e.
  - right. by exists msg.
Qed.

End WithChmod.

(** Permissions are changed only for artifacts marked executable, and
    never on the platform "win32": there, or when no artifact is marked,
    what [fs.chmodSync] would do has no influence on the outcome. *)
Theorem chmod_only_for_executables (chmod1 chmod2 : string → N → Disk → result unit * Disk)
    (files : list CompilationFile) (baseDir : string) (disk : Disk) :
  platform = "win32" ∨ Forall (λ f, executable f ≠ Some true) files →
  writeFiles Disk path_join path_dirname platform fs_existsSync fs_mkdirSync
    fs_writeFileSync chmod1 files baseDir disk
  = writeFiles Disk path_join path_dirname platform fs_existsSync fs_mkdirSync
      fs_writeFileSync chmod2 files baseDir disk.
Proof.
  intros Hno.
  assert (Forall (λ f, wants_chmod platform f = false) files) as Hskip.
  { destruct Hno as [-> | Hnone].
    - apply Forall_forall. intros f _. unfold wants_chmod.
      by destruct (executable f) as [[|]|].
    - eapply Forall_impl; [exact Hnone|]. intros f Hf. unfold wants_chmod.
      simpl in Hf. destruct (executable f) as [[|]|]; [by destruct Hf|done|done]. }
  clear Hno. revert disk. induction Hskip as [|f files Hf _ IH]; intros disk; [done|].
  simpl. unfold writeFile. rewrite Hf.
  destruct (if negb (fs_existsSync disk _) then _ else _) as [[[]|e] disk1]; [|done].
  destruct (fs_writeFileSync _ _ disk1) as [[[]|e] disk2]; [apply IH|done].
Qed.

End CompileProperties.

(** ** The artifact list *)

Section ArtifactList.
Import GovernanceCompiler.

Variable JSON_stringify : SettingsGenerator.ClaudeSettings → string.
Variable HooksGenerator_generate : GovernanceConfig → result (list GeneratedHook).
Variable dirname : string.
Variable path_join : list string → string.
Variable fs_readFileSync : string → result string.
Variable Handlebars_compile : string → WorkflowGenerator.TemplateData → result string.

(** A generated artifact list is the descriptor, then one script per
    generated hook under the hooks directory, then the workflow, then the
    documentation: three artifacts more than hooks, at fixed relative
    paths, and only hook scripts can carry an executable mark. *)
Theorem artifact_list_shape (config : GovernanceConfig) (baseDir : string)
    (generated : list CompilationFile) :
  generateFiles JSON_stringify HooksGenerator_generate dirname path_join
    fs_readFileSync Handlebars_compile config baseDir = Ok generated →
  ∃ hooks,
    HooksGenerator_generate config = Ok hooks ∧
    map file_path generated
    = ".claude/settings.json"
      :: map (λ h, ".claude/hooks/" +:+ hook_filename h) hooks
      ++ [".github/workflows/governance.yml"; "GOVERNANCE.md"] ∧
    length generated = length hooks + 3 ∧
    (∀ f, f ∈ generated → is_Some (executable f) → ∃ h, h ∈ hooks ∧ f = hook_file h).
Proof.
  unfold generateFiles, WorkflowGenerator.generate.
  destruct (SettingsGenerator.generate config) as [settings|e]; simpl; [|done].
  destruct (HooksGenerator_generate config) as [hooks|e]; simpl; [|done].
  destruct (fs_readFileSync _) as [template|e]; simpl; [|done].
  destruct (Handlebars_compile template _) as [rendered|e]; simpl; [|done].
  intros [= <-]. exists hooks. split_and!.
  - done.
  - simpl. f_equal. by rewrite map_app, map_map.
  - simpl. rewrite length_app, length_map. simpl. lia.
  - intros f Hin Hexec.
    apply elem_of_cons in Hin as [->|Hin]; [by destruct Hexec|].
    apply elem_of_app in Hin as [Hin|Hin].
    + apply list_elem_of_fmap in Hin as (h & -> & Hh). by exists h.
    + apply elem_of_cons in Hin as [->|Hin]; [by destruct Hexec|].
      apply list_elem_of_singleton in Hin as ->. by destruct Hexec.
Qed.

End ArtifactList.

Lemma artifact_list_shape_witness :
  ∃ hooks,
    sample_hooks readme_config = Ok hooks ∧
    map GovernanceCompiler.file_path
      [ {| GovernanceCompiler.file_path := ".claude/settings.json";
           GovernanceCompiler.file_content := "{ permissions }";
           GovernanceCompiler.executable := None |};
        {| GovernanceCompiler.file_path := ".claude/hooks/validate-permissions.sh";
           GovernanceCompiler.file_content := "#!/bin/bash";
           GovernanceCompiler.executable := Some true |};
        {| GovernanceCompiler.file_path := ".github/workflows/governance.yml";
           GovernanceCompiler.file_content := "name: my-app";
           GovernanceCompiler.executable := None |};
        {| GovernanceCompiler.file_path := "GOVERNANCE.md";
           GovernanceCompiler.file_content :=
             GovernanceCompiler.generateDocumentation readme_config;
           GovernanceCompiler.executable := None |} ]
    = ".claude/settings.json"
      :: map (λ h, ".claude/hooks/" +:+ GovernanceCompiler.hook_filename h) hooks
      ++ [".github/workflows/governance.yml"; "GOVERNANCE.md"] ∧
    length
      [ {| GovernanceCompiler.file_path := ".claude/settings.json";
           GovernanceCompiler.file_content := "{ permissions }";
           GovernanceCompiler.executable := None |};
        {| GovernanceCompiler.file_path := ".claude/hooks/validate-permissions.sh";
           GovernanceCompiler.file_content := "#!/bin/bash";
           GovernanceCompiler.executable := Some true |};
        {| GovernanceCompiler.file_path := ".github/workflows/governance.yml";
           GovernanceCompiler.file_content := "name: my-app";
           GovernanceCompiler.executable := None |};
        {| GovernanceCompiler.file_path := "GOVERNANCE.md";
           GovernanceCompiler.file_content :=
             GovernanceCompiler.generateDocumentation readme_config;
           GovernanceCompiler.executable := None |} ]
    = length hooks + 3.
Proof.
  destruct (artifact_list_shape sample_stringify sample_hooks sample_dirname
              sample_join sample_disk_before sample_engine readme_config "out" _
              eq_refl) as (hooks & H1 & H2 & H3 & _).
  exists hooks. split_and!; assumption.
Defined.

(** ** A sample disk *)

(** A disk as a map from paths to contents, on which directories need no
    creation, reads fail on missing paths, and writes fail under the
    read-only directory "ro". *)
Definition sample_disk : gmap string string :=
  {[ "governance.yaml" := "version: 1";
     sample_template_path := "name: {{projectName}}" ]}.

Definition disk_exists (disk : gmap string string) (file : string) : bool :=
  bool_decide (is_Some (disk !! file)).

Definition disk_read (disk : gmap string string) (file : string) : result string :=
  match disk !! file with
  | Some text => Ok text
  | None => Throw "ENOENT"
  end.

Definition disk_dirname (file : string) : string := "governance.yaml".

Definition disk_mkdir (dir : string) (disk : gmap string string)
    : result unit * gmap string string :=
  (Ok (), disk).

Definition disk_write (file text : string) (disk : gmap string string)
    : result unit * gmap string string :=
  if String.prefix "ro/" file then (Throw "EROFS", disk)
  else (Ok (), <[file := text]> disk).

Definition disk_chmod (file : string) (mode : N) (disk : gmap string string)
    : result unit * gmap string string :=
  (Ok (), disk).

(** A schema check that accepts every text as [empty_path_config]. *)
Definition sample_accept (data : string) : GovernanceParser.SchemaFailure + GovernanceConfig :=
  inr empty_path_config.

Definition settings_artifact : GovernanceCompiler.CompilationFile :=
  {| GovernanceCompiler.file_path := ".claude/settings.json";
     GovernanceCompiler.file_content := "{}";
     GovernanceCompiler.executable := None |}.

Definition hook_artifact : GovernanceCompiler.CompilationFile :=
  {| GovernanceCompiler.file_path := ".claude/hooks/check.sh";
     GovernanceCompiler.file_content := "#!/bin/bash";
     GovernanceCompiler.executable := Some true |}.

Lemma write_failure_keeps_earlier_writes_witness :
  CompilerIO.writeFiles (gmap string string) sample_join disk_dirname "linux" disk_exists
    disk_mkdir (λ file text disk,
      if decide (file = "out/.claude/hooks/check.sh") then (Throw "EACCES", disk)
      else disk_write file text disk)
    disk_chmod ([settings_artifact] ++ hook_artifact :: [settings_artifact]) "out"
    sample_disk
  = (Throw "EACCES", <["out/.claude/settings.json" := "{}"]> sample_disk).
Proof.
  apply (write_failure_keeps_earlier_writes (gmap string string) sample_join
           disk_dirname "linux" disk_exists disk_mkdir _ disk_chmod
           [settings_artifact] [settings_artifact] hook_artifact "out" "EACCES"
           sample_disk (<["out/.claude/settings.json" := "{}"]> sample_disk));
    reflexivity.
Defined.

Lemma write_files_in_sequence_witness :
  CompilerIO.writeFiles (gmap string string) sample_join disk_dirname "linux" disk_exists
    disk_mkdir disk_write disk_chmod ([settings_artifact] ++ [hook_artifact]) "out"
    sample_disk
  = CompilerIO.writeFiles (gmap string string) sample_join disk_dirname "linux"
      disk_exists disk_mkdir disk_write disk_chmod [hook_artifact] "out"
      (<["out/.claude/settings.json" := "{}"]> sample_disk).
Proof.
  apply (write_files_in_sequence (gmap string string) sample_join disk_dirname
           "linux" disk_exists disk_mkdir disk_write disk_chmod).
  reflexivity.
Defined.

Lemma invalid_document_is_rejected_everywhere_witness :
  CompilerIO.compile (gmap string string) sample_join disk_dirname "linux" disk_exists
    disk_read disk_mkdir disk_write disk_chmod sample_stringify sample_hooks
    sample_dirname sample_engine string sample_load sample_schema
    "governance.yaml" "out" sample_disk
  = (CompilerIO.failure
       (GovernanceParser.formatValidationError
          (GovernanceParser.ZodError sample_issues) "governance.yaml"),
     sample_disk).
Proof.
  apply (invalid_document_is_rejected_everywhere (gmap string string) sample_join
           disk_dirname "linux" disk_exists disk_read disk_mkdir disk_write
           sample_stringify sample_hooks sample_dirname sample_engine string
           sample_load sample_schema disk_chmod "governance.yaml" "out").
  reflexivity.
Defined.

Lemma malformed_rule_writes_nothing_witness :
  CompilerIO.compile (gmap string string) sample_join disk_dirname "linux" disk_exists
    disk_read disk_mkdir disk_write disk_chmod sample_stringify sample_hooks
    sample_dirname sample_engine string sample_load sample_accept
    "governance.yaml" "out" sample_disk
  = (CompilerIO.failure "Filesystem permission rule must have a path", sample_disk).
Proof.
  apply (malformed_rule_writes_nothing (gmap string string) sample_join
           disk_dirname "linux" disk_exists disk_read disk_mkdir disk_write
           sample_stringify sample_hooks sample_dirname sample_engine string
           sample_load sample_accept disk_chmod "governance.yaml" "out" sample_disk
           empty_path_config Deny
           {| rule_path := Some ""; rule_pattern := None; rule_reason := None |}).
  - reflexivity.
  - apply list_elem_of_In. simpl. auto.
  - right. reflexivity.
Defined.

Lemma chmod_only_for_executables_witness :
  CompilerIO.writeFiles (gmap string string) sample_join disk_dirname "win32" disk_exists
    disk_mkdir disk_write disk_chmod [hook_artifact] "out" sample_disk
  = CompilerIO.writeFiles (gmap string string) sample_join disk_dirname "win32"
      disk_exists disk_mkdir disk_write (λ _ _ disk, (Throw "EPERM", disk))
      [hook_artifact] "out" sample_disk.
Proof.
  apply (chmod_only_for_executables (gmap string string) sample_join disk_dirname
           "win32" disk_exists disk_mkdir disk_write).
  left. reflexivity.
Defined.

(** ** The permissions section of the descriptor *)

Section PermissionsSection.
Import SettingsGenerator.

(** The descriptor has a permissions section exactly when the document
    has one, also when the document's section declares no rule at all; a
    list key inside it is absent exactly when the document declares no
    filesystem rule and no command rule for that list. *)
Theorem permissions_section (config : GovernanceConfig) (settings : ClaudeSettings) :
  generate config = Ok settings →
  (is_Some (settings_permissions settings) ↔ is_Some (permissions config)) ∧
  (∀ perms k, settings_permissions settings = Some perms →
     (emitted k perms = None ↔
      scope_rules config filesystem (declared k) = [] ∧
      scope_rules config commands (declared k) = [])).
Proof.
  intros Hgen. split.
  - pose proof (generate_permissions _ _ Hgen) as Hp.
    destruct (permissions config) as [p|].
    + destruct Hp as (perms & _ & ->). by split; eauto.
    + rewrite Hp. by split; intros [? ?].
  - intros perms k Hperms.
    destruct (generate_files_then_commands _ _ k Hgen) as (fs & cs & Hfs & Hcs & Hout).
    rewrite Hperms in Hout. simpl in Hout. rewrite Hout.
    pose proof (Forall2_length _ _ _ Hfs) as Hlf.
    pose proof (Forall2_length _ _ _ Hcs) as Hlc.
    destruct fs as [|f fs], cs as [|c cs]; simpl;
      destruct (scope_rules config filesystem (declared k)),
               (scope_rules config commands (declared k)); simpl in *;
      try done; split; try done; by intros [? ?].
Qed.

Lemma permissions_section_witness :
  is_Some (settings_permissions readme_settings) ↔ is_Some (permissions readme_config).
Proof.
  apply (permissions_section readme_config readme_settings).
  vm_compute. reflexivity.
Defined.

(** Every entry of a descriptor list is a capability label followed by a
    non-empty glob in parentheses, the label being Read|Write|Edit or
    Bash: no entry names another tool, and none has an empty glob. *)
Theorem descriptor_entries_wellformed (config : GovernanceConfig)
    (settings : ClaudeSettings) (k : ListKind) (entry : string) :
  generate config = Ok settings →
  entry ∈ descriptor_list settings (emitted k) →
  ∃ glob, glob ≠ "" ∧
    (entry = "Read|Write|Edit(" +:+ glob +:+ ")" ∨ entry = "Bash(" +:+ glob +:+ ")").
Proof.
  intros Hgen Hin.
  destruct (generate_files_then_commands _ _ k Hgen) as (fs & cs & Hfs & Hcs & Hout).
  assert (descriptor_list settings (emitted k) = fs ++ cs) as Heq.
  { unfold descriptor_list. rewrite Hout. by destruct (fs ++ cs). }
  rewrite Heq in Hin. apply elem_of_app in Hin as [Hin|Hin].
  - apply list_elem_of_lookup in Hin as [i Hi].
    destruct (Forall2_lookup_r _ _ _ _ _ Hfs Hi) as (r & _ & Hr).
    apply formatFilePermission_inv in Hr as (p & _ & Hne & ->). exists p. auto.
  - apply list_elem_of_lookup in Hin as [i Hi].
    destruct (Forall2_lookup_r _ _ _ _ _ Hcs Hi) as (r & _ & Hr).
    apply formatBashPermission_inv in Hr as (p & _ & Hne & ->). exists p. auto.
Qed.

Lemma descriptor_entries_wellformed_witness :
  ∃ glob, glob ≠ "" ∧
    ("Bash(rm -rf *)" = "Read|Write|Edit(" +:+ glob +:+ ")" ∨
     "Bash(rm -rf *)" = "Bash(" +:+ glob +:+ ")").
Proof.
  apply (descriptor_entries_wellformed readme_config readme_settings Deny).
  - vm_compute. reflexivity.
  - apply list_elem_of_In. simpl. auto.
Defined.

End PermissionsSection.

(** A schema check that accepts every text as [readme_config]. *)
Definition sample_accept_readme (data : string)
    : GovernanceParser.SchemaFailure + GovernanceConfig :=
  inr readme_config.

Lemma compile_agrees_with_preview_witness :
  (CompilerIO.compile (gmap string string) sample_join disk_dirname "linux" disk_exists
     disk_read disk_mkdir disk_write disk_chmod sample_stringify sample_hooks
     sample_dirname sample_engine string sample_load sample_accept_readme
     "governance.yaml" "out" sample_disk).1
  = CompilerIO.preview_on (gmap string string) sample_join disk_exists disk_read
      sample_stringify sample_hooks sample_dirname sample_engine string sample_load
      sample_accept_readme "governance.yaml" sample_disk.
Proof.
  apply (compile_agrees_with_preview (gmap string string) sample_join disk_dirname
           "linux" disk_exists disk_read disk_mkdir disk_write sample_stringify
           sample_hooks sample_dirname sample_engine string sample_load
           sample_accept_readme disk_chmod "governance.yaml" "out" sample_disk).
  vm_compute. reflexivity.
Defined.

Example sample_compile_writes :
  (CompilerIO.compile (gmap string string) sample_join disk_dirname "linux" disk_exists
     disk_read disk_mkdir disk_write disk_chmod sample_stringify sample_hooks
     sample_dirname sample_engine string sample_load sample_accept_readme
     "governance.yaml" "out" sample_disk).2
  = <["out/GOVERNANCE.md" := GovernanceCompiler.generateDocumentation readme_config]>
      (<["out/.github/workflows/governance.yml" := "name: my-app"]>
         (<["out/.claude/hooks/validate-permissions.sh" := "#!/bin/bash"]>
            (<["out/.claude/settings.json" := "{ permissions }"]> sample_disk))).
Proof. vm_compute. reflexivity. Qed.

Example sample_compile_read_only :
  CompilerIO.compile (gmap string string) sample_join disk_dirname "linux" disk_exists
    disk_read disk_mkdir disk_write disk_chmod sample_stringify sample_hooks
    sample_dirname sample_engine string sample_load sample_accept_readme
    "governance.yaml" "ro" sample_disk
  = (CompilerIO.failure "EROFS", sample_disk).
Proof. vm_compute. reflexivity. Qed.

(** * The schema and the schema check

    [src/schema/governance.ts] builds [GovernanceSchema] from the
    constructors of the schema library.  The schema is embedded as a term
    of the constructors it uses; the check the library runs on a loaded
    document is written out for those constructors: it visits every field
    of every object, every item of every array and every value of every
    record, and appends the issues it finds, each with the path from the
    root of the document. *)

Module Zod.

Import GovernanceParser.

(** What the YAML loader returns: a tree of scalars, sequences and
    mappings ([undefined], for an empty document, is the absence of a
    tree). *)
#[local] Unset Elimination Schemes.
Inductive YamlNode : Type :=
  | YNull
  | YBool (b : bool)
  | YNum (n : JsNumber)
  | YStr (s : string)
  | YDate (iso : string)
  | YSeq (items : list YamlNode)
  | YMap (entries : list (string * YamlNode)).

(** The constructors of the schema library that the schema uses:
    [z.string()], [z.number()], [z.boolean()], [z.any()], [z.enum([...])],
    [z.array(s)], [z.record(s)], [z.object({...})] and [s.optional()]. *)
Inductive Schema : Type :=
  | z_string
  | z_number
  | z_boolean
  | z_any
  | z_enum (values : list string)
  | z_array (element : Schema)
  | z_record (value : Schema)
  | z_object (shape : list (string * Schema))
  | z_optional (inner : Schema).
#[local] Set Elimination Schemes.

(** [data[key]] on a loaded mapping. *)
Fixpoint entry (key : string) (entries : list (string * YamlNode)) : option YamlNode :=
  match entries with
  | [] => None
  | (k, v) :: rest => if decide (k = key) then Some v else entry key rest
  end.

(** The library's name for the type of a value. *)
Definition parsed_type (v : option YamlNode) : string :=
  match v with
  | None => "undefined"
  | Some YNull => "null"
  | Some (YBool _) => "boolean"
  | Some (YNum S754_nan) => "nan"
  | Some (YNum _) => "number"
  | Some (YStr _) => "string"
  | Some (YDate _) => "date"
  | Some (YSeq _) => "array"
  | Some (YMap _) => "object"
  end.

(** ['a' | 'b' | 'c'], the way the library prints the values of an enum. *)
Definition join_values (values : list string) : string :=
  join " | " (map (λ v, "'" +:+ v +:+ "'") values).

(** The issue for a value of the wrong type, with the library's default
    message. *)
Definition type_issue (at_path : list PathSegment) (expected : string)
    (v : option YamlNode) : ZodIssue :=
  {| code := invalid_type;
     path := at_path;
     message :=
       match v with
       | None => "Required"
       | Some _ => "Expected " +:+ expected +:+ ", received " +:+ parsed_type v
       end;
     options := [] |}.

(** The issue for a string outside an enum. *)
Definition enum_issue (at_path : list PathSegment) (values : list string)
    (received : string) : ZodIssue :=
  {| code := invalid_enum_value;
     path := at_path;
     message := "Invalid enum value. Expected " +:+ join_values values +:+
                ", received '" +:+ received +:+ "'";
     options := values |}.

(** The issues of checking [v], found at [at_path], against a schema. *)
Fixpoint issues (s : Schema) (at_path : list PathSegment) (v : option YamlNode)
    : list ZodIssue :=
  match s with
  | z_any => []
  | z_optional inner =>
      match v with
      | None => []
      | Some _ => issues inner at_path v
      end
  | z_string =>
      match v with
      | Some (YStr _) => []
      | _ => [type_issue at_path "string" v]
      end
  | z_number =>
      match v with
      | Some (YNum S754_nan) => [type_issue at_path "number" v]
      | Some (YNum _) => []
      | _ => [type_issue at_path "number" v]
      end
  | z_boolean =>
      match v with
      | Some (YBool _) => []
      | _ => [type_issue at_path "boolean" v]
      end
  | z_enum values =>
      match v with
      | Some (YStr x) =>
          if bool_decide (x ∈ values) then [] else [enum_issue at_path values x]
      | _ => [type_issue at_path (join_values values) v]
      end
  | z_array element =>
      match v with
      | Some (YSeq items) =>
          concat (imap (λ i item,
                          issues element (at_path ++ [Index (N.of_nat i)]) (Some item))
                       items)
      | _ => [type_issue at_path "array" v]
      end
  | z_record value =>
      match v with
      | Some (YMap entries) =>
          flat_map (λ kv, issues value (at_path ++ [Key kv.1]) (Some kv.2)) entries
      | _ => [type_issue at_path "object" v]
      end
  | z_object shape =>
      match v with
      | Some (YMap entries) =>
          flat_map (λ ks, let '(k, field) := ks in
                          issues field (at_path ++ [Key k]) (entry k entries))
                   shape
      | _ => [type_issue at_path "object" v]
      end
  end.

End Zod.

(** ** [GovernanceSchema] ([src/schema/governance.ts]) *)

Module GovernanceSchemaTerm.

Import Zod.

Definition optional_string : Schema := z_optional z_string.
Definition optional_strings : Schema := z_optional (z_array z_string).
Definition optional_boolean : Schema := z_optional z_boolean.

Definition PermissionRuleSchema : Schema :=
  z_object [ ("path", optional_string);
             ("pattern", optional_string);
             ("reason", optional_string) ].

Definition FilesystemPermissionsSchema : Schema :=
  z_object [ ("deny", z_optional (z_array PermissionRuleSchema));
             ("ask", z_optional (z_array PermissionRuleSchema));
             ("allow", z_optional (z_array PermissionRuleSchema)) ].

Definition CommandPermissionsSchema : Schema :=
  z_object [ ("deny", z_optional (z_array PermissionRuleSchema));
             ("ask", z_optional (z_array PermissionRuleSchema));
             ("allow", z_optional (z_array PermissionRuleSchema)) ].

Definition NetworkPermissionsSchema : Schema :=
  z_object [ ("allowed_domains", optional_strings);
             ("blocked_domains", optional_strings) ].

Definition PermissionsSchema : Schema :=
  z_object [ ("filesystem", z_optional FilesystemPermissionsSchema);
             ("commands", z_optional CommandPermissionsSchema);
             ("network", z_optional NetworkPermissionsSchema) ].

Definition SecretPatternSchema : Schema :=
  z_object [ ("pattern", z_string); ("name", optional_string) ].

Definition SecretsSchema : Schema :=
  z_object [ ("policy", optional_string);
             ("allowed_sources", optional_strings);
             ("detection",
              z_optional (z_object
                [ ("patterns", z_optional (z_array SecretPatternSchema)) ]));
             ("enforcement",
              z_optional (z_object
                [ ("hook", optional_string);
                  ("action", optional_string);
                  ("message", optional_string) ])) ].

Definition ApprovalGateActionSchema : Schema :=
  z_object [ ("type", z_enum ActionType_options);
             ("command", optional_string);
             ("prompt", optional_string);
             ("timeout", z_optional z_number) ].

Definition ApprovalGateTriggerSchema : Schema :=
  z_object [ ("tool", optional_string);
             ("path_pattern", optional_string);
             ("command_pattern", optional_string) ].

Definition ApprovalGateSchema : Schema :=
  z_object [ ("name", z_string);
             ("trigger", ApprovalGateTriggerSchema);
             ("action", ApprovalGateActionSchema) ].

Definition AuditSchema : Schema :=
  z_object [ ("enabled", optional_boolean);
             ("events", optional_strings);
             ("destinations",
              z_optional (z_array (z_object
                [ ("type", z_string);
                  ("path", optional_string);
                  ("bucket", optional_string);
                  ("prefix", optional_string);
                  ("profile", optional_string);
                  ("endpoint", optional_string);
                  ("headers", z_optional (z_record z_string)) ])));
             ("required_fields", optional_strings);
             ("retention", optional_string) ].

Definition SandboxSchema : Schema :=
  z_object [ ("enabled", optional_boolean);
             ("mode", z_optional (z_enum ["auto-allow"; "regular"]));
             ("filesystem",
              z_optional (z_object
                [ ("allowed_paths", optional_strings);
                  ("blocked_paths", optional_strings) ]));
             ("network",
              z_optional (z_object [ ("inherit_from", optional_string) ]));
             ("excluded_commands", optional_strings) ].

Definition ComplianceControlSchema : Schema :=
  z_object [ ("id", z_string);
             ("description", z_string);
             ("satisfied_by", z_array z_string) ].

Definition ComplianceFrameworkSchema : Schema :=
  z_object [ ("name", z_string);
             ("controls", z_array ComplianceControlSchema) ].

Definition RoleSchema : Schema :=
  z_object [ ("members", optional_strings);
             ("restrictions", optional_strings);
             ("additional_gates", z_optional (z_array ApprovalGateSchema));
             ("behavior", optional_strings) ].

Definition RequiredTestSchema : Schema :=
  z_object [ ("name", z_string);
             ("command", z_string);
             ("directories", optional_strings) ].

Definition OperationalSchema : Schema :=
  z_object
    [ ("branches",
       z_optional (z_object
         [ ("protected",
            z_optional (z_array (z_object
              [ ("name", z_string); ("requires", z_record z_any) ]))) ]));
      ("deployment",
       z_optional (z_object
         [ ("sequence",
            z_optional (z_array (z_object
              [ ("environment", z_string);
                ("branch", z_string);
                ("auto_deploy", optional_boolean);
                ("gates", optional_strings) ]))) ]));
      ("dynamodb",
       z_optional (z_object
         [ ("billing_mode", z_string);
           ("enforcement", z_string);
           ("reason", optional_string) ]));
      ("git",
       z_optional (z_object
         [ ("no_claude_attribution", optional_boolean);
           ("reason", optional_string) ])) ].

Definition TestingSchema : Schema :=
  z_object
    [ ("required_before_commit", z_optional (z_array RequiredTestSchema));
      ("required_before_merge", z_optional (z_array RequiredTestSchema));
      ("enforcement",
       z_optional (z_object
         [ ("hook", z_string); ("action", z_string); ("prompt", optional_string) ])) ].

Definition CostControlSchema : Schema :=
  z_object [ ("resource", optional_string);
             ("policy", optional_string);
             ("alert_threshold", optional_string);
             ("action", optional_string);
             ("enforcement", optional_string) ].

Definition GovernanceSchema : Schema :=
  z_object
    [ ("version", z_string);
      ("project", z_string);
      ("description", optional_string);
      ("data_classification", z_optional (z_record (z_array z_string)));
      ("permissions", z_optional PermissionsSchema);
      ("secrets", z_optional SecretsSchema);
      ("approval_gates", z_optional (z_array ApprovalGateSchema));
      ("operational", z_optional OperationalSchema);
      ("testing", z_optional TestingSchema);
      ("roles", z_optional (z_record RoleSchema));
      ("audit", z_optional AuditSchema);
      ("sandbox", z_optional SandboxSchema);
      ("compliance",
       z_optional (z_object
         [ ("frameworks", z_optional (z_array ComplianceFrameworkSchema)) ]));
      ("cost_controls", z_optional (z_record (z_array CostControlSchema))) ].

Section Parse.
(** The typed view of a tree that passed the check: in the source the
    parsed value is the tree itself, read at the type the schema infers. *)
Variable typed : option YamlNode → GovernanceConfig.

(** [GovernanceSchema.parse(data)]: the value when there is no issue, the
    library's error with all the issues otherwise. *)
Definition GovernanceSchema_parse (data : option YamlNode)
    : GovernanceParser.SchemaFailure + GovernanceConfig :=
  match issues GovernanceSchema [] data with
  | [] => inr (typed data)
  | (_ :: _) as errs => inl (GovernanceParser.ZodError errs)
  end.
End Parse.

End GovernanceSchemaTerm.

(** ** Every violation of the schema is reported *)

Section Violations.
Import GovernanceParser Zod GovernanceSchemaTerm.








Variable yaml_load : string → result (option YamlNode).
Variable typed : option YamlNode → GovernanceConfig.


End Violations.

(** A loaded document with four violations: no project, a gate whose name
    is a number and whose action type is not in the enum, and a sandbox
    mode outside its enum. *)
Definition broken_document : Zod.YamlNode :=
  Zod.YMap
    [ ("version", Zod.YStr "1.0");
      ("approval_gates",
       Zod.YSeq
         [ Zod.YMap
             [ ("name", Zod.YNum (S754_finite false 5 0));
               ("trigger", Zod.YMap [ ("command_pattern", Zod.YStr "git push") ]);
               ("action", Zod.YMap [ ("type", Zod.YStr "shell") ]) ] ]);
      ("sandbox", Zod.YMap [ ("mode", Zod.YStr "strict") ]) ].


Definition broken_load (content : string) : result (option Zod.YamlNode) :=
  Ok (Some broken_document).

Definition sample_typed (data : option Zod.YamlNode) : GovernanceConfig :=
  minimal_config "1.0" "my-app".

Example broken_report :
  GovernanceParser.parseString (option Zod.YamlNode) broken_load
    (GovernanceSchemaTerm.GovernanceSchema_parse sample_typed) "" "governance.yaml"
  = Throw (join GovernanceParser.newline
      [ "Validation errors in governance.yaml:";
        "  - project: Required";
        "  - approval_gates.0.name: Expected string, received number";
        "  - approval_gates.0.action.type: Invalid enum value. Expected 'command' | 'prompt' | 'agent', received 'shell'";
        "    Allowed values: command, prompt, agent";
        "  - sandbox.mode: Invalid enum value. Expected 'auto-allow' | 'regular', received 'strict'";
        "    Allowed values: auto-allow, regular" ]).
Proof. vm_compute. reflexivity. Qed.





(** * Two runs of the compiler *)

Section TwoRuns.
Import GovernanceParser GovernanceCompiler CompilerIO.

Variable Disk : Type.
Variable path_join : list string → string.
Variable path_dirname : string → string.
Variable platform : string.
Variable fs_existsSync : Disk → string → bool.
Variable fs_readFileSync : Disk → string → result string.
Variable fs_mkdirSync : string → Disk → result unit * Disk.
Variable fs_writeFileSync : string → string → Disk → result unit * Disk.
Variable fs_chmodSync : string → N → Disk → result unit * Disk.
Variable JSON_stringify : SettingsGenerator.ClaudeSettings → string.
Variable HooksGenerator_generate : GovernanceConfig → result (list GeneratedHook).
Variable dirname : string.
Variable Handlebars_compile : string → WorkflowGenerator.TemplateData → result string.
Variable Raw : Type.
Variable yaml_load : string → result Raw.
Variable GovernanceSchema_parse : Raw → SchemaFailure + GovernanceConfig.

Local Abbreviation write_file :=
  (writeFile Disk path_join path_dirname platform fs_existsSync fs_mkdirSync
     fs_writeFileSync fs_chmodSync).
Local Abbreviation write_files :=
  (writeFiles Disk path_join path_dirname platform fs_existsSync fs_mkdirSync
     fs_writeFileSync fs_chmodSync).
Local Abbreviation attempt :=
  (parse_and_generate Disk path_join fs_existsSync fs_readFileSync JSON_stringify
     HooksGenerator_generate dirname Handlebars_compile Raw yaml_load
     GovernanceSchema_parse).
Local Abbreviation compile_on :=
  (compile Disk path_join path_dirname platform fs_existsSync fs_readFileSync
     fs_mkdirSync fs_writeFileSync fs_chmodSync JSON_stringify HooksGenerator_generate
     dirname Handlebars_compile Raw yaml_load GovernanceSchema_parse).












End TwoRuns.



Example second_run_artifacts :
  map GovernanceCompiler.file_path
    (GovernanceCompiler.files
       (CompilerIO.compile (gmap string string) sample_join disk_dirname "linux"
          disk_exists disk_read disk_mkdir disk_write disk_chmod sample_stringify
          sample_hooks sample_dirname sample_engine string sample_load
          sample_accept_readme "governance.yaml" "out2"
          (CompilerIO.compile (gmap string string) sample_join disk_dirname "linux"
             disk_exists disk_read disk_mkdir disk_write disk_chmod sample_stringify
             sample_hooks sample_dirname sample_engine string sample_load
             sample_accept_readme "governance.yaml" "out1" sample_disk).2).1)
  = [ ".claude/settings.json"; ".claude/hooks/validate-permissions.sh";
      ".github/workflows/governance.yml"; "GOVERNANCE.md" ].
Proof. vm_compute. reflexivity. Qed.
